(** * Instance migration sessions: source and sink orchestration

    A shallow embedding of [newMigrationSource], [migrationSourceWs.Do],
    [newMigrationSink] and [migrationSink.Do].  The orchestration code is
    sequential; everything it talks to (the entropy source, the [criu] lookup,
    the websocket transport, the instance driver callbacks, the one-shot
    [allConnected] channel) is an external collaborator.  The collaborators
    are modelled by a record of oracles ([Env]); the orchestrator itself is
    modelled as written, in a small state monad that threads the receiver
    struct, a logical clock in milliseconds, the set of closed connections,
    the stack of deferred calls and a timestamped trace of every call made
    to a collaborator. *)

From Stdlib Require Import ZArith.
From stdpp Require Import base option list gmap strings.

Local Open Scope Z_scope.

(** ** Go errors *)

(** The error values the code builds or inspects.  [ErrWrap ctx e] is
    [fmt.Errorf("<ctx>: %w", e)]; [ErrWsClose] is gorilla's
    [*websocket.CloseError], carried with the text its [Error] method
    renders; the last two are the sentinels of the [migration] package. *)
Inductive error : Type :=
| ErrText (msg : string)
| ErrWrap (context : string) (cause : error)
| ErrWsClose (code : Z) (rendered : string)
| ErrNoLiveMigrationSource
| ErrNoLiveMigrationTarget.

#[global] Instance error_eq_dec : EqDecision error.
Proof. solve_decision. Defined.

(** Modelled from the spec: the texts of the two sentinel errors, which are
    declared in the [migration] package ("no live migration support at
    source", and its target-side counterpart). *)
Definition sentinelText (source : bool) : string :=
  if source then "no live migration support at source"%string
  else "no live migration support at target"%string.

(** [err.Error()]. *)
Fixpoint Error (e : error) : string :=
  match e with
  | ErrText msg => msg
  | ErrWrap context cause => (context ++ ": " ++ Error cause)%string
  | ErrWsClose _ rendered => rendered
  | ErrNoLiveMigrationSource => sentinelText true
  | ErrNoLiveMigrationTarget => sentinelText false
  end.

(** [errors.As(err, &wsCloseErr)] with [wsCloseErr : *websocket.CloseError]:
    walks the chain of wrapped causes looking for a close error. *)
Fixpoint errors_As_CloseError (e : error) : bool :=
  match e with
  | ErrWsClose _ _ => true
  | ErrWrap _ cause => errors_As_CloseError cause
  | _ => false
  end.

(** [err == nil] on an [error] interface value. *)
Definition isNil (err : option error) : bool :=
  match err with None => true | Some _ => false end.

(** ** Data model *)

(** [instancetype.Type]. *)
Inductive instancetype : Type := Any | Container | VM.

#[global] Instance instancetype_eq_dec : EqDecision instancetype.
Proof. solve_decision. Defined.

(** A [*websocket.Conn]; [None] at type [option WsConn] is the nil pointer. *)
Definition WsConn : Type := positive.

(** [*operations.Operation] and [*operationlock.InstanceOperation] handles. *)
Definition Operation : Type := positive.
Definition InstanceOperation : Type := positive.

(** [migration.MigrationControl]: two optional protobuf fields. *)
Record MigrationControl : Type := mkMigrationControl {
  Success : option bool;
  Message : option string
}.

(** [proto.Bool] and [proto.String] box their argument. *)
Definition proto_Bool (b : bool) : option bool := Some b.
Definition proto_String (s : string) : option string := Some s.

(** Which [migrationFields] struct a bound method value refers to: the one
    embedded in a source session, or the [src] / [dest] field of a sink. *)
Inductive FieldsRef : Type := OfSource | OfSinkSrc | OfSinkDest.

(** The method values [x.send] and [x.recv] handed to the driver. *)
Inductive ControlFn : Type :=
| SendOf (r : FieldsRef)
| RecvOf (r : FieldsRef).

(** [shared.WebsocketIO]. *)
Record WebsocketIO : Type := mkWebsocketIO { Conn : option WsConn }.

(** [instance.MigrateArgs], [instance.MigrateSendArgs] and
    [instance.MigrateReceiveArgs]. *)
Record MigrateArgs : Type := mkMigrateArgs {
  ControlSend : ControlFn;
  ControlReceive : ControlFn;
  LiveConn : WebsocketIO;
  DataConn : WebsocketIO;
  Snapshots : bool;
  Live : bool
}.

Record MigrateSendArgs : Type := mkMigrateSendArgs {
  SendMigrateArgs : MigrateArgs;
  AllowInconsistent : bool
}.

Record MigrateReceiveArgs : Type := mkMigrateReceiveArgs {
  ReceiveMigrateArgs : MigrateArgs;
  ArgInstanceOperation : option InstanceOperation;
  Refresh : bool
}.

(** A Go call with results [(v, err)] is modelled by a sum: [inl v] for
    [(v, nil)] and [inr err] for [(zero, err)].  The two components, as the
    caller assigns them: *)
Definition valueOf {A} (zero : A) (r : A + error) : A :=
  match r with inl v => v | inr _ => zero end.

Definition connOf (r : WsConn + error) : option WsConn :=
  match r with inl c => Some c | inr _ => None end.

Definition errOf {A} (r : A + error) : option error :=
  match r with inl _ => None | inr e => Some e end.

(** What a call into the instance driver does: it returns an error value
    (possibly nil), or it never returns (the callbacks are unbounded). *)
Inductive callResult : Type :=
| Returns (err : option error)
| NeverReturns.

(** The [instance.Instance] interface, as far as the sessions use it. *)
Record Instance : Type := mkInstance {
  Name : string;
  ProjectName : string;
  Type_ : instancetype;
  IsRunning : bool;
  MigrateSend : MigrateSendArgs -> callResult;
  MigrateReceive : MigrateReceiveArgs -> callResult
}.

(** A [chan struct{}] field: nil, or made with [make]. *)
Inductive chan : Type := ChanNil | ChanMade.

(** [migrationFields]: one side's channel state.  [instance] is an interface
    value, nil ([None]) in the zero value of the struct. *)
Record migrationFields : Type := mkMigrationFields {
  controlSecret : string;
  controlConn : option WsConn;
  criuSecret : string;
  criuConn : option WsConn;
  fsSecret : string;
  fsConn : option WsConn;
  instance : option Instance;
  live : bool;
  instanceOnly : bool;
  allowInconsistent : bool
}.

(** [migrationSourceWs]. *)
Record migrationSourceWs : Type := mkMigrationSourceWs {
  sourceFields : migrationFields;
  sourceAllConnected : chan
}.

(** [MigrationSinkArgs]. *)
Record MigrationSinkArgs : Type := mkMigrationSinkArgs {
  ArgURL : string;
  ArgDialer : positive;
  ArgInstance : option Instance;
  ArgInstanceOnly : bool;
  ArgSecrets : gmap string string;
  ArgPush : bool;
  ArgLive : bool;
  ArgRefresh : bool
}.

(** [migrationSink]. *)
Record migrationSink : Type := mkMigrationSink {
  src : migrationFields;
  dest : migrationFields;
  url : string;
  dialer : positive;
  sinkAllConnected : chan;
  push : bool;
  refresh : bool
}.

(** ** External collaborators *)

(** Every call that leaves the orchestrator. *)
Inductive Event : Type :=
| EvLog (level msg : string)
| EvRandomCryptoString
| EvLookPath (file : string)
| EvSetOperation (op : option Operation)
| EvMigrateSend (args : MigrateSendArgs)
| EvMigrateReceive (args : MigrateReceiveArgs)
| EvWriteControl (conn : WsConn) (msg : MigrationControl)
| EvSetReadDeadline (conn : WsConn) (deadline : Z)
| EvReadMessage (conn : WsConn)
| EvDial (secret : string)
| EvClose (conn : WsConn).

(** The answers of the collaborators.  Calls that can be repeated are
    indexed by the number of earlier calls of the same kind. *)
Record Env : Type := mkEnv {
  (* shared.RandomCryptoString *)
  randomCryptoString : nat -> string + error;
  (* exec.LookPath: the error it returns, nil when the file is found *)
  lookPath : string -> option error;
  (* when the allConnected channel is closed, if ever (absolute time) *)
  allConnectedAt : option Z;
  (* which case select takes when both are ready at the same instant *)
  selectTie : bool;
  (* the error of a write of a control message *)
  writeControl : nat -> WsConn -> MigrationControl -> option error;
  (* delay after which the peer answers a read (nothing, ever, if None),
     and the error the read then reports *)
  peerReplyAfter : option N;
  peerReplyErr : option error;
  (* connectWithSecret: a connection, or the error of the dial *)
  dial : nat -> string -> WsConn + error
}.

(** ** The orchestration monad *)

(** A deferred call, as the two [Do] methods register them: a log line, or
    [disconnect] on one of the receiver's [migrationFields]. *)
Inductive Deferred (T : Type) : Type :=
| DeferLogInfo (msg : string)
| DeferDisconnect (fields : T -> migrationFields).

Arguments DeferLogInfo {T} msg.
Arguments DeferDisconnect {T} fields.

(** The state a method runs in: its receiver [self] (a pointer receiver, so
    assignments to its fields persist), the collaborators, the clock, the
    connections closed so far, the read deadlines set so far, the number of
    calls made to the indexed oracles, the deferred calls of the running
    function (most recent first) and the trace (oldest first). *)
Record Sys (T : Type) : Type := mkSys {
  self : T;
  env : Env;
  clock : Z;
  closed : gset WsConn;
  deadlines : gmap WsConn Z;
  randomCalls : nat;
  writeCalls : nat;
  dialCalls : nat;
  deferred : list (Deferred T);
  trace : list (Z * Event)
}.

Arguments mkSys {T}.
Arguments self {T}.
Arguments env {T}.
Arguments clock {T}.
Arguments closed {T}.
Arguments deadlines {T}.
Arguments randomCalls {T}.
Arguments writeCalls {T}.
Arguments dialCalls {T}.
Arguments deferred {T}.
Arguments trace {T}.

(** How a computation ends: it returns, it blocks forever, or it panics
    (a nil pointer dereference). *)
Inductive Outcome (T A : Type) : Type :=
| Returned (a : A) (st : Sys T)
| Blocked (st : Sys T)
| Panicked (st : Sys T).

Arguments Returned {T A}.
Arguments Blocked {T A}.
Arguments Panicked {T A}.

Definition Go (T A : Type) : Type := Sys T -> Outcome T A.

Section Monad.
Context {T : Type}.

Definition ret {A} (a : A) : Go T A := fun st => Returned a st.

Definition bind {A B} (m : Go T A) (k : A -> Go T B) : Go T B :=
  fun st =>
    match m st with
    | Returned a st' => k a st'
    | Blocked st' => Blocked st'
    | Panicked st' => Panicked st'
    end.

Definition panic {A} : Go T A := fun st => Panicked st.

(** A method call on an interface value or pointer: nil panics. *)
Definition deref {A} (p : option A) : Go T A :=
  match p with
  | Some x => ret x
  | None => panic
  end.

Definition modifySelf (g : T -> T) : Go T unit :=
  fun st =>
    Returned tt
      (mkSys (g (self st)) (env st) (clock st) (closed st) (deadlines st)
         (randomCalls st) (writeCalls st) (dialCalls st) (deferred st)
         (trace st)).

Definition getSelf : Go T T := fun st => Returned (self st) st.

Definition getClock : Go T Z := fun st => Returned (clock st) st.

Definition setClock (t : Z) (st : Sys T) : Sys T :=
  mkSys (self st) (env st) t (closed st) (deadlines st)
    (randomCalls st) (writeCalls st) (dialCalls st) (deferred st)
    (trace st).

(** Append one event, stamped with the current time. *)
Definition record (e : Event) (st : Sys T) : Sys T :=
  mkSys (self st) (env st) (clock st) (closed st) (deadlines st)
    (randomCalls st) (writeCalls st) (dialCalls st) (deferred st)
    (trace st ++ [(clock st, e)]).

Definition emit (e : Event) : Go T unit :=
  fun st => Returned tt (record e st).

(** The [defer] statement. *)
Definition defer (d : Deferred T) : Go T unit :=
  fun st =>
    Returned tt
      (mkSys (self st) (env st) (clock st) (closed st) (deadlines st)
         (randomCalls st) (writeCalls st) (dialCalls st) (d :: deferred st)
         (trace st)).

Definition setDeferred (ds : list (Deferred T)) (st : Sys T) : Sys T :=
  mkSys (self st) (env st) (clock st) (closed st) (deadlines st)
    (randomCalls st) (writeCalls st) (dialCalls st) ds (trace st).

(** [Close] on a connection. *)
Definition closeConn (c : WsConn) (st : Sys T) : Sys T :=
  mkSys (self st) (env st) (clock st) ({[ c ]} ∪ closed st) (deadlines st)
    (randomCalls st) (writeCalls st) (dialCalls st) (deferred st)
    (trace st ++ [(clock st, EvClose c)]).

Definition closeIfSet (c : option WsConn) (st : Sys T) : Sys T :=
  match c with
  | Some c => closeConn c st
  | None => st
  end.

(** Modelled from the spec: [migrationFields.disconnect], which is declared
    outside the files at hand; it closes every channel the channel state
    holds (control, filesystem, live-state). *)
Definition disconnect (f : migrationFields) (st : Sys T) : Sys T :=
  closeIfSet (criuConn f) (closeIfSet (fsConn f) (closeIfSet (controlConn f) st)).

Definition runDeferred (d : Deferred T) (st : Sys T) : Sys T :=
  match d with
  | DeferLogInfo msg => record (EvLog "info" msg) st
  | DeferDisconnect fields => disconnect (fields (self st)) st
  end.

(** Deferred calls run last registered first. *)
Definition runAllDeferred (st : Sys T) : Sys T :=
  setDeferred [] (fold_left (fun s d => runDeferred d s) (deferred st) st).

(** A function call: the body runs with its own empty stack of deferred
    calls, which run when the body returns or panics, not when it blocks. *)
Definition call {A} (body : Go T A) : Go T A :=
  fun st =>
    let saved := deferred st in
    match body (setDeferred [] st) with
    | Returned a st' => Returned a (setDeferred saved (runAllDeferred st'))
    | Blocked st' => Blocked st'
    | Panicked st' => Panicked (setDeferred saved (runAllDeferred st'))
    end.

(** [logger.Info] and [logger.Error]. *)
Definition logInfo (msg : string) : Go T unit := emit (EvLog "info" msg).
Definition logError (msg : string) : Go T unit := emit (EvLog "error" msg).

(** [shared.RandomCryptoString()]. *)
Definition RandomCryptoString : Go T (string + error) :=
  fun st =>
    Returned (randomCryptoString (env st) (randomCalls st))
      (mkSys (self st) (env st) (clock st) (closed st) (deadlines st)
         (S (randomCalls st)) (writeCalls st) (dialCalls st) (deferred st)
         (trace st ++ [(clock st, EvRandomCryptoString)])).

(** [exec.LookPath(file)], keeping only the error. *)
Definition LookPath (file : string) : Go T (option error) :=
  fun st => Returned (lookPath (env st) file) (record (EvLookPath file) st).

(** The moment a channel becomes ready for receiving: never for a nil
    channel, and when it is closed for a made one. *)
Definition chanReadyAt (e : Env) (ch : chan) : option Z :=
  match ch with
  | ChanNil => None
  | ChanMade => allConnectedAt e
  end.

(** [select { case <-time.After(timeout): ...; case <-ch: ... }] started
    at [t0].  The channel case is taken when the channel is ready before
    the timer fires; when both become ready at the same instant the
    runtime picks either.  The select ends when the chosen case is ready. *)
Definition channelWins (e : Env) (ch : chan) (t0 timeout : Z) : bool :=
  match chanReadyAt e ch with
  | None => false
  | Some ready =>
      if ready <? t0 + timeout then true
      else if ready =? t0 + timeout then selectTie e
      else false
  end.

Definition selectEnds (e : Env) (ch : chan) (t0 timeout : Z) : Z :=
  match chanReadyAt e ch with
  | None => t0 + timeout
  | Some ready => if ready <? t0 + timeout then Z.max t0 ready else t0 + timeout
  end.

(** [true] when the channel case is taken, [false] when the timer case is. *)
Definition selectOrTimeout (ch : chan) (timeout : Z) : Go T bool :=
  fun st =>
    Returned (channelWins (env st) ch (clock st) timeout)
      (setClock (selectEnds (env st) ch (clock st) timeout) st).

(** Writing one control message on a connection. *)
Definition writeMessage (c : WsConn) (msg : MigrationControl) : Go T (option error) :=
  fun st =>
    Returned (writeControl (env st) (writeCalls st) c msg)
      (mkSys (self st) (env st) (clock st) (closed st) (deadlines st)
         (randomCalls st) (S (writeCalls st)) (dialCalls st) (deferred st)
         (trace st ++ [(clock st, EvWriteControl c msg)])).

(** Modelled from the spec: [migrationFields.send], which is declared
    outside the files at hand; it sends the message on the control channel
    of the channel state.  With no control channel there is nothing to
    send on, and the call reports an error. *)
Definition send (f : migrationFields) (msg : MigrationControl) : Go T (option error) :=
  match controlConn f with
  | Some c => writeMessage c msg
  | None => ret (Some (ErrText "Control connection not initialized"))
  end.

(** Modelled from the spec: [migrationFields.sendControl], which is
    declared outside the files at hand; it notifies the remote of [err] by
    a control message with success=false and the error's text, on the
    control channel of the channel state when there is one. *)
Definition sendControl (f : migrationFields) (err : option error) : Go T unit :=
  match controlConn f with
  | Some c =>
      bind (writeMessage c
              (mkMigrationControl (proto_Bool (isNil err))
                 (match err with
                  | Some e => proto_String (Error e)
                  | None => None
                  end)))
        (fun _ => ret tt)
  | None => ret tt
  end.

(** [conn.SetReadDeadline(t)]; the code discards its result. *)
Definition SetReadDeadline (conn : option WsConn) (t : Z) : Go T unit :=
  match conn with
  | None => panic
  | Some c =>
      fun st =>
        Returned tt
          (mkSys (self st) (env st) (clock st) (closed st)
             (<[ c := t ]> (deadlines st))
             (randomCalls st) (writeCalls st) (dialCalls st) (deferred st)
             (trace st ++ [(clock st, EvSetReadDeadline c t)]))
  end.

(** The error a read reports when its deadline passes. *)
Definition errReadTimeout : error := ErrText "i/o timeout".

(** [conn.ReadMessage()], keeping only the error: the read ends when the
    peer answers or when the read deadline of the connection passes,
    whichever comes first; with neither it blocks forever. *)
Definition ReadMessage (conn : option WsConn) : Go T (option error) :=
  match conn with
  | None => panic
  | Some c =>
      fun st =>
        let st1 := record (EvReadMessage c) st in
        let start := clock st in
        match deadlines st !! c, peerReplyAfter (env st) with
        | Some dl, Some d =>
            if start + Z.of_N d <=? dl
            then Returned (peerReplyErr (env st)) (setClock (start + Z.of_N d) st1)
            else Returned (Some errReadTimeout) (setClock (Z.max start dl) st1)
        | Some dl, None =>
            Returned (Some errReadTimeout) (setClock (Z.max start dl) st1)
        | None, Some d =>
            Returned (peerReplyErr (env st)) (setClock (start + Z.of_N d) st1)
        | None, None => Blocked st1
        end
  end.

(** [migrationSink.connectWithSecret], declared outside the files at hand:
    it dials the remote with one secret and returns either a connection
    or an error, taken from the collaborators. *)
Definition connectWithSecret (secret : string) : Go T (WsConn + error) :=
  fun st =>
    Returned (dial (env st) (dialCalls st) secret)
      (mkSys (self st) (env st) (clock st) (closed st) (deadlines st)
         (randomCalls st) (writeCalls st) (S (dialCalls st)) (deferred st)
         (trace st ++ [(clock st, EvDial secret)])).

(** A call into the instance driver. *)
Definition driverCall (e : Event) (r : callResult) : Go T (option error) :=
  fun st =>
    match r with
    | Returns err => Returned err (record e st)
    | NeverReturns => Blocked (record e st)
    end.

End Monad.

Declare Scope go_scope.
Delimit Scope go_scope with go.
Notation "'let*' x ':=' m 'in' k" := (bind m (fun x => k))
  (at level 10, x name, m at level 100, k at level 200) : go_scope.
Notation "'exec' m 'in' k" := (bind m (fun _ => k))
  (at level 10, m at level 100, k at level 200) : go_scope.
Local Open Scope go_scope.

(** ** Field assignments *)

(** Assignments to one field of a [migrationFields] struct. *)
Definition setControlSecret (v : string) (f : migrationFields) : migrationFields :=
  mkMigrationFields v (controlConn f) (criuSecret f) (criuConn f) (fsSecret f)
    (fsConn f) (instance f) (live f) (instanceOnly f) (allowInconsistent f).

Definition setFsSecret (v : string) (f : migrationFields) : migrationFields :=
  mkMigrationFields (controlSecret f) (controlConn f) (criuSecret f) (criuConn f) v
    (fsConn f) (instance f) (live f) (instanceOnly f) (allowInconsistent f).

Definition setCriuSecret (v : string) (f : migrationFields) : migrationFields :=
  mkMigrationFields (controlSecret f) (controlConn f) v (criuConn f) (fsSecret f)
    (fsConn f) (instance f) (live f) (instanceOnly f) (allowInconsistent f).

Definition setControlConn (v : option WsConn) (f : migrationFields) : migrationFields :=
  mkMigrationFields (controlSecret f) v (criuSecret f) (criuConn f) (fsSecret f)
    (fsConn f) (instance f) (live f) (instanceOnly f) (allowInconsistent f).

Definition setFsConn (v : option WsConn) (f : migrationFields) : migrationFields :=
  mkMigrationFields (controlSecret f) (controlConn f) (criuSecret f) (criuConn f)
    (fsSecret f) v (instance f) (live f) (instanceOnly f) (allowInconsistent f).

Definition setCriuConn (v : option WsConn) (f : migrationFields) : migrationFields :=
  mkMigrationFields (controlSecret f) (controlConn f) (criuSecret f) v (fsSecret f)
    (fsConn f) (instance f) (live f) (instanceOnly f) (allowInconsistent f).

Definition setLive (v : bool) (f : migrationFields) : migrationFields :=
  mkMigrationFields (controlSecret f) (controlConn f) (criuSecret f) (criuConn f)
    (fsSecret f) (fsConn f) (instance f) v (instanceOnly f) (allowInconsistent f).

Definition setInstanceOnly (v : bool) (f : migrationFields) : migrationFields :=
  mkMigrationFields (controlSecret f) (controlConn f) (criuSecret f) (criuConn f)
    (fsSecret f) (fsConn f) (instance f) (live f) v (allowInconsistent f).

(** The zero value of [migrationFields]. *)
Definition zeroFields : migrationFields :=
  mkMigrationFields "" None "" None "" None None false false false.

Definition setInstance (v : option Instance) (f : migrationFields) : migrationFields :=
  mkMigrationFields (controlSecret f) (controlConn f) (criuSecret f) (criuConn f)
    (fsSecret f) (fsConn f) v (live f) (instanceOnly f) (allowInconsistent f).

Definition setAllowInconsistent (v : bool) (f : migrationFields) : migrationFields :=
  mkMigrationFields (controlSecret f) (controlConn f) (criuSecret f) (criuConn f)
    (fsSecret f) (fsConn f) (instance f) (live f) (instanceOnly f) v.

(** Assignments through the embedded struct of a source session and through
    the [src] and [dest] fields of a sink. *)
Definition onSourceFields (g : migrationFields -> migrationFields) (s : migrationSourceWs)
  : migrationSourceWs :=
  mkMigrationSourceWs (g (sourceFields s)) (sourceAllConnected s).

Definition onSrc (g : migrationFields -> migrationFields) (c : migrationSink) : migrationSink :=
  mkMigrationSink (g (src c)) (dest c) (url c) (dialer c) (sinkAllConnected c) (push c)
    (refresh c).

Definition onDest (g : migrationFields -> migrationFields) (c : migrationSink) : migrationSink :=
  mkMigrationSink (src c) (g (dest c)) (url c) (dialer c) (sinkAllConnected c) (push c)
    (refresh c).

Definition setSinkAllConnected (ch : chan) (c : migrationSink) : migrationSink :=
  mkMigrationSink (src c) (dest c) (url c) (dialer c) ch (push c) (refresh c).

(** ** The source session *)

(** [newMigrationSource].  The Go function returns a pointer and an error;
    [None] in the first component is the nil pointer.  The struct under
    construction is the local variable [ret] of the Go code. *)
Definition newMigrationSource (inst : option Instance)
    (stateful instanceOnly_ allowInconsistent_ : bool)
  : Go unit (option migrationSourceWs * option error) :=
  call (
    let ret0 :=
      mkMigrationSourceWs
        (setAllowInconsistent allowInconsistent_ (setInstance inst zeroFields))
        ChanMade in
    let ret1 := onSourceFields (setInstanceOnly instanceOnly_) ret0 in
    let* r := RandomCryptoString in
    let ret2 := onSourceFields (setControlSecret (valueOf "" r)) ret1 in
    match errOf r with
    | Some err => ret (None, Some err)
    | None =>
        let* r := RandomCryptoString in
        let ret3 := onSourceFields (setFsSecret (valueOf "" r)) ret2 in
        match errOf r with
        | Some err => ret (None, Some err)
        | None =>
            let* running := (if stateful then let* i := deref inst in ret (IsRunning i)
                             else ret false) in
            if stateful && running then
              let ret4 := onSourceFields (setLive true) ret3 in
              let* i := deref inst in
              if decide (Type_ i = Container) then
                let* err := LookPath "criu" in
                match err with
                | Some _ => ret (None, Some ErrNoLiveMigrationSource)
                | None =>
                    let* r := RandomCryptoString in
                    let ret5 := onSourceFields (setCriuSecret (valueOf "" r)) ret4 in
                    match errOf r with
                    | Some err => ret (None, Some err)
                    | None => ret (Some ret5, None)
                    end
                end
              else ret (Some ret4, None)
            else ret (Some ret3, None)
        end
    end).

(** The argument struct [migrationSourceWs.Do] passes to [MigrateSend]. *)
Definition sourceSendArgs (s : migrationSourceWs) : MigrateSendArgs :=
  mkMigrateSendArgs
    (mkMigrateArgs (SendOf OfSource) (RecvOf OfSource)
       (mkWebsocketIO (criuConn (sourceFields s)))
       (mkWebsocketIO (fsConn (sourceFields s)))
       (negb (instanceOnly (sourceFields s)))
       (live (sourceFields s)))
    (allowInconsistent (sourceFields s)).

(** [migrationSourceWs.Do]. *)
Definition sourceDo (migrateOp : option Operation) : Go migrationSourceWs (option error) :=
  call (
    let* s := getSelf in
    let* inst := deref (instance (sourceFields s)) in
    exec logInfo "Waiting for migration channel connections on source" in
    let* connected := selectOrTimeout (sourceAllConnected s) (1000 * 10) in
    if negb connected then
      ret (Some (ErrText "Timed out waiting for migration connections"))
    else
      exec logInfo "Migration channels connected on source" in
      exec defer (DeferLogInfo "Migration channels disconnected on source") in
      exec defer (DeferDisconnect sourceFields) in
      let* s := getSelf in
      let* inst := deref (instance (sourceFields s)) in
      exec emit (EvSetOperation migrateOp) in
      let args := sourceSendArgs s in
      let* err := driverCall (EvMigrateSend args) (MigrateSend inst args) in
      match err with
      | Some e =>
          exec logError "Failed migration on source" in
          exec
            (if negb (errors_As_CloseError e) then
               let msg :=
                 mkMigrationControl (proto_Bool (isNil err)) (proto_String (Error e)) in
               let* sendErr := send (sourceFields s) msg in
               match sendErr with
               | Some _ => logError "Failed sending control error to target"
               | None =>
                   let* now := getClock in
                   exec SetReadDeadline (controlConn (sourceFields s)) (now + 1000 * 5) in
                   exec ReadMessage (controlConn (sourceFields s)) in
                   ret tt
               end
             else ret tt) in
          ret (Some (ErrWrap "Failed migration on source" e))
      | None => ret None
      end).

(** ** The sink session *)

(** The two-result map index [v, ok = m[k]]. *)
Definition lookupOk (m : gmap string string) (k : string) : string * bool :=
  match m !! k with
  | Some v => (v, true)
  | None => (""%string, false)
  end.

(** [newMigrationSink]. *)
Definition newMigrationSink (args : MigrationSinkArgs)
  : Go unit (option migrationSink * option error) :=
  call (
    let sink0 :=
      mkMigrationSink
        (setInstanceOnly (ArgInstanceOnly args) (setInstance (ArgInstance args) zeroFields))
        (setInstanceOnly (ArgInstanceOnly args) zeroFields)
        (ArgURL args) (ArgDialer args) ChanNil (ArgPush args) (ArgRefresh args) in
    let sink1 := if push sink0 then setSinkAllConnected ChanMade sink0 else sink0 in
    let* filled :=
      (if push sink1 then
         let* r := RandomCryptoString in
         let sink2 := onDest (setControlSecret (valueOf "" r)) sink1 in
         match errOf r with
         | Some err => ret (inl err)
         | None =>
             let* r := RandomCryptoString in
             let sink3 := onDest (setFsSecret (valueOf "" r)) sink2 in
             match errOf r with
             | Some err => ret (inl err)
             | None =>
                 let sink4 := onDest (setLive (ArgLive args)) sink3 in
                 if live (dest sink4) then
                   let* r := RandomCryptoString in
                   let sink5 := onDest (setCriuSecret (valueOf "" r)) sink4 in
                   match errOf r with
                   | Some err => ret (inl err)
                   | None => ret (inr sink5)
                   end
                 else ret (inr sink4)
             end
         end
       else
         let r := lookupOk (ArgSecrets args) "control" in
         let sink2 := onSrc (setControlSecret (fst r)) sink1 in
         if negb (snd r) then ret (inl (ErrText "Missing control secret"))
         else
           let r := lookupOk (ArgSecrets args) "fs" in
           let sink3 := onSrc (setFsSecret (fst r)) sink2 in
           if negb (snd r) then ret (inl (ErrText "Missing fs secret"))
           else
             let r := lookupOk (ArgSecrets args) "criu" in
             let sink4 := onSrc (setCriuSecret (fst r)) sink3 in
             ret (inr (onSrc (setLive (snd r || ArgLive args)) sink4))) in
    match filled with
    | inl err => ret (None, Some err)
    | inr sink =>
        let* i := deref (instance (src sink)) in
        if decide (Type_ i = Container) then
          let* err := LookPath "criu" in
          if push sink && live (dest sink) && negb (isNil err) then
            ret (None, Some ErrNoLiveMigrationTarget)
          else if live (src sink) && negb (isNil err) then
            ret (None, Some ErrNoLiveMigrationTarget)
          else ret (Some sink, None)
        else ret (Some sink, None)
    end).

(** The argument struct [migrationSink.Do] passes to [MigrateReceive]; [live_]
    is the local variable [live] computed on entry. *)
Definition sinkReceiveArgs (c : migrationSink) (live_ : bool)
    (instOp : option InstanceOperation) : MigrateReceiveArgs :=
  let receiver := if push c then RecvOf OfSinkDest else RecvOf OfSinkSrc in
  let sender := if push c then SendOf OfSinkDest else SendOf OfSinkSrc in
  let liveConn := if push c then criuConn (dest c) else criuConn (src c) in
  let dataConn := if push c then fsConn (dest c) else fsConn (src c) in
  mkMigrateReceiveArgs
    (mkMigrateArgs sender receiver (mkWebsocketIO liveConn) (mkWebsocketIO dataConn)
       (negb (instanceOnly (dest c))) live_)
    instOp (refresh c).

(** [migrationSink.Do].  The early [return] statements of the connection
    phase are the [Some] results of [phase]; [None] falls through to the
    transfer. *)
Definition sinkDo (instOp : option InstanceOperation) : Go migrationSink (option error) :=
  call (
    let* c := getSelf in
    let live0 := live (src c) in
    let live_ := if push c then live (dest c) else live0 in
    let* inst := deref (instance (src c)) in
    exec logInfo "Waiting for migration channel connections on target" in
    let* timedOut :=
      (if push c then
         let* connected := selectOrTimeout (sinkAllConnected c) (1000 * 10) in
         ret (negb connected)
       else ret false) in
    if timedOut then ret (Some (ErrText "Timed out waiting for migration connections"))
    else
      let* phase :=
        (if push c then
           exec defer (DeferDisconnect dest) in
           ret None
         else
           let* c := getSelf in
           let* r := connectWithSecret (controlSecret (src c)) in
           exec modifySelf (onSrc (setControlConn (connOf r))) in
           match errOf r with
           | Some e => ret (Some (ErrWrap "Failed connecting control sink socket" e))
           | None =>
               exec defer (DeferDisconnect src) in
               let* c := getSelf in
               let* r := connectWithSecret (fsSecret (src c)) in
               exec modifySelf (onSrc (setFsConn (connOf r))) in
               match errOf r with
               | Some e =>
                   let err := ErrWrap "Failed connecting filesystem sink socket" e in
                   let* c := getSelf in
                   exec sendControl (src c) (Some err) in
                   ret (Some err)
               | None =>
                   let* c := getSelf in
                   let* isContainer :=
                     (if live (src c) then
                        let* i := deref (instance (src c)) in
                        ret (bool_decide (Type_ i = Container))
                      else ret false) in
                   if live (src c) && isContainer then
                     let* r := connectWithSecret (criuSecret (src c)) in
                     exec modifySelf (onSrc (setCriuConn (connOf r))) in
                     match errOf r with
                     | Some e =>
                         let err := ErrWrap "Failed connecting CRIU sink socket" e in
                         let* c := getSelf in
                         exec sendControl (src c) (Some err) in
                         ret (Some err)
                     | None => ret None
                     end
                   else ret None
               end
           end) in
      match phase with
      | Some err => ret (Some err)
      | None =>
          exec logInfo "Migration channels connected on target" in
          exec defer (DeferLogInfo "Migration channels disconnected on target") in
          let* c := getSelf in
          let* i := deref (instance (src c)) in
          let args := sinkReceiveArgs c live_ instOp in
          let* err := driverCall (EvMigrateReceive args) (MigrateReceive i args) in
          match err with
          | Some e =>
              exec logError "Failed migration on target" in
              ret (Some (ErrWrap "Failed migration on target" e))
          | None => ret None
          end
      end).

(** ** Running a session *)

(** The state in which a constructor or a [Do] method starts: nothing
    closed, no deadline set, no call made yet. *)
Definition start {T} (x : T) (e : Env) (t0 : Z) : Sys T :=
  mkSys x e t0 ∅ ∅ 0%nat 0%nat 0%nat [] [].

(** Where a run ended, and what it returned if it did. *)
Definition final {T A} (o : Outcome T A) : Sys T :=
  match o with
  | Returned _ st => st
  | Blocked st => st
  | Panicked st => st
  end.

Definition returned {T A} (o : Outcome T A) : option A :=
  match o with
  | Returned a _ => Some a
  | _ => None
  end.

(** The all-connected signal is observed by the ten-second wait that starts
    at [t0]. *)
Definition connectsInTime (e : Env) (ch : chan) (t0 : Z) : Prop :=
  channelWins e ch t0 (1000 * 10) = true.

(** The signal never fires. *)
Definition neverConnects (e : Env) (ch : chan) : Prop :=
  chanReadyAt e ch = None.

(** The events of a trace, without their time stamps. *)
Definition events (tr : list (Z * Event)) : list Event := map snd tr.

Definition isMigrateSend (e : Event) : bool :=
  match e with EvMigrateSend _ => true | _ => false end.
Definition isMigrateReceive (e : Event) : bool :=
  match e with EvMigrateReceive _ => true | _ => false end.
Definition isSetOperation (e : Event) : bool :=
  match e with EvSetOperation _ => true | _ => false end.
Definition isWriteControl (e : Event) : bool :=
  match e with EvWriteControl _ _ => true | _ => false end.
Definition isReadMessage (e : Event) : bool :=
  match e with EvReadMessage _ => true | _ => false end.
Definition isDial (e : Event) : bool :=
  match e with EvDial _ => true | _ => false end.
Definition isLookPath (e : Event) : bool :=
  match e with EvLookPath _ => true | _ => false end.
Definition isRandom (e : Event) : bool :=
  match e with EvRandomCryptoString => true | _ => false end.
Definition isClose (e : Event) : bool :=
  match e with EvClose _ => true | _ => false end.

(** The events of one kind that a run produced, in order. *)
Definition calls {T A} (kind : Event -> bool) (o : Outcome T A) : list Event :=
  List.filter kind (events (trace (final o))).

(** The connections a channel state holds. *)
Definition heldConns (f : migrationFields) : list WsConn :=
  omap id [controlConn f; fsConn f; criuConn f].

(** The error of the connection wait, and the control message that reports
    a failure [err] to the peer. *)
Definition errTimedOut : error := ErrText "Timed out waiting for migration connections".

Definition failureNotice (err : error) : MigrationControl :=
  mkMigrationControl (Some false) (Some (Error err)).

(** A session of either kind with the argument of its [Do], and what one
    run of [Do] leaves behind: the returned error if [Do] returned, the
    clock, the closed connections, the trace, and the channel state the
    session uses ([dest] for a push-mode sink, [src] for a pull-mode one). *)
Inductive session : Type :=
| SourceSession (s : migrationSourceWs) (migrateOp : option Operation)
| SinkSession (c : migrationSink) (instOp : option InstanceOperation).

Record Report : Type := mkReport {
  repReturned : option (option error);
  repClock : Z;
  repClosed : gset WsConn;
  repEvents : list Event;
  repFields : migrationFields
}.

Definition report {T} (used : T -> migrationFields) (o : Outcome T (option error)) : Report :=
  mkReport (returned o) (clock (final o)) (closed (final o)) (events (trace (final o)))
    (used (self (final o))).

Definition sinkFields (c : migrationSink) : migrationFields :=
  if push c then dest c else src c.

Definition runDo (x : session) (e : Env) (t0 : Z) : Report :=
  match x with
  | SourceSession s migrateOp => report sourceFields (sourceDo migrateOp (start s e t0))
  | SinkSession c instOp => report sinkFields (sinkDo instOp (start c e t0))
  end.

(** The dials of a pull-mode sink all succeed: control, filesystem, and,
    when the session is live and the instance [i] a container, live-state. *)
Definition pullDialsSucceed (e : Env) (c : migrationSink) (i : Instance) : Prop :=
  exists cc fc,
    dial e 0 (controlSecret (src c)) = inl cc /\
    dial e 1 (fsSecret (src c)) = inl fc /\
    (live (src c) && bool_decide (Type_ i = Container) = true ->
     exists rc, dial e 2 (criuSecret (src c)) = inl rc).

(** The channels of a sink session are ready: the all-connected signal is
    observed in push mode, the dials succeed in pull mode. *)
Definition channelsReady (e : Env) (c : migrationSink) (i : Instance) (t0 : Z) : Prop :=
  if push c then connectsInTime e (sinkAllConnected c) t0 else pullDialsSucceed e c i.

(** [Do] got far enough to register its cleanup: the wait of a source or
    of a push-mode sink observed the signal; the control dial of a
    pull-mode sink succeeded. *)
Definition cleanupRegistered (x : session) (e : Env) (t0 : Z) : Prop :=
  match x with
  | SourceSession s _ => connectsInTime e (sourceAllConnected s) t0
  | SinkSession c _ =>
      if push c then connectsInTime e (sinkAllConnected c) t0
      else exists cc, dial e 0 (controlSecret (src c)) = inl cc
  end.

(** A pull-mode sink that holds no data channel yet, as
    [newMigrationSink] leaves it. *)
Definition holdsNoDataChannel (x : session) : Prop :=
  match x with
  | SourceSession _ _ => False
  | SinkSession c _ => push c = false /\ fsConn (src c) = None /\ criuConn (src c) = None
  end.

(** A construction request of either kind, and what the constructor
    returns for it (if it returns) together with the events it produced. *)
Inductive request : Type :=
| SourceRequest (inst : option Instance) (stateful instanceOnly_ allowInconsistent_ : bool)
| SinkRequest (args : MigrationSinkArgs).

Inductive built : Type :=
| BuiltSource (s : migrationSourceWs)
| BuiltSink (c : migrationSink).

Definition construct (r : request) (e : Env) (t0 : Z)
  : option (option built * option error) * list Event :=
  match r with
  | SourceRequest inst stateful instanceOnly_ allowInconsistent_ =>
      let o :=
        newMigrationSource inst stateful instanceOnly_ allowInconsistent_ (start tt e t0) in
      (match returned o with
       | Some (s, err) => Some (option_map BuiltSource s, err)
       | None => None
       end,
       events (trace (final o)))
  | SinkRequest args =>
      let o := newMigrationSink args (start tt e t0) in
      (match returned o with
       | Some (c, err) => Some (option_map BuiltSink c, err)
       | None => None
       end,
       events (trace (final o)))
  end.

(** The request asks for liveness on a container: a stateful source request
    for a running container; a sink request for a container with [Live]
    set or, in pull mode, with a live-state secret supplied. *)
Definition wantsLiveContainer (r : request) : Prop :=
  match r with
  | SourceRequest inst stateful _ _ =>
      exists i, inst = Some i /\ stateful = true /\ IsRunning i = true /\ Type_ i = Container
  | SinkRequest args =>
      exists i, ArgInstance args = Some i /\ Type_ i = Container /\
        (ArgLive args = true \/
         (ArgPush args = false /\ is_Some (ArgSecrets args !! "criu"%string)))
  end.

(** The secrets the constructor handles before it looks for the checkpoint
    tool are there: generated without error (two for a source, three for
    a live push-mode sink), or supplied (control and filesystem, for a
    pull-mode sink). *)
Definition secretsObtained (e : Env) (r : request) : Prop :=
  match r with
  | SourceRequest _ _ _ _ =>
      errOf (randomCryptoString e 0) = None /\ errOf (randomCryptoString e 1) = None
  | SinkRequest args =>
      if ArgPush args then
        errOf (randomCryptoString e 0) = None /\ errOf (randomCryptoString e 1) = None /\
        errOf (randomCryptoString e 2) = None
      else
        is_Some (ArgSecrets args !! "control"%string) /\
        is_Some (ArgSecrets args !! "fs"%string)
  end.

(** The checkpoint tool is absent: looking it up reports an error. *)
Definition criuAbsent (e : Env) : Prop := is_Some (lookPath e "criu").

(** The live-migration-unsupported error of each side. *)
Definition unsupported (r : request) : error :=
  match r with
  | SourceRequest _ _ _ _ => ErrNoLiveMigrationSource
  | SinkRequest _ => ErrNoLiveMigrationTarget
  end.

(** ** Sample collaborators and sessions *)

(** An instance whose driver callbacks return the given results. *)
Definition sampleInstance (ty : instancetype) (running : bool) (sendResult : callResult)
  : Instance :=
  mkInstance "c1" "default" ty running (fun _ => sendResult) (fun _ => Returns None).

(** Collaborators that always succeed: fresh secrets, [criu] installed
    unless [criuMissing], the signal fired at [ready], writes accepted, a
    silent peer, the n-th dial answered with connection n+1. *)
Definition sampleEnv (criuMissing : bool) (ready : option Z) : Env :=
  mkEnv
    (fun n => inl (match n with
                   | O => "Zm9vYmFy"
                   | S O => "YmFyYmF6"
                   | _ => "cXV4cXV1eA"
                   end)%string)
    (fun _ => if criuMissing then Some (ErrText "executable file not found in $PATH") else None)
    ready false
    (fun _ _ _ => None)
    None None
    (fun n _ => inl (Pos.of_nat (S n))).

(** Collaborators whose entropy source fails. *)
Definition noEntropyEnv : Env :=
  mkEnv
    (fun _ => inr (ErrText "entropy source failure"))
    (fun _ => None) None false (fun _ _ _ => None) None None
    (fun n _ => inl (Pos.of_nat (S n))).

(** A source session with the given instance and connections. *)
Definition sampleSource (i : Instance) (control fs : option WsConn) : migrationSourceWs :=
  mkMigrationSourceWs
    (mkMigrationFields "s" control "" None "ss" fs (Some i) false false false)
    ChanMade.

(** A sink session for the given instance: in push mode with the given
    [dest] connections, in pull mode with the secrets of the remote. *)
Definition sampleSink (i : Instance) (push_ live_ : bool) (control fs : option WsConn)
  : migrationSink :=
  if push_ then
    mkMigrationSink
      (setInstance (Some i) zeroFields)
      (mkMigrationFields "s" control "" None "ss" fs None live_ false false)
      "" 1%positive ChanMade true false
  else
    mkMigrationSink
      (mkMigrationFields "s" None "sss" None "ss" None (Some i) live_ false false)
      zeroFields
      "https://source.example/1.0/operations/op" 1%positive ChanNil false false.

(** A pull-mode request for a live container migration that supplies the
    given secrets. *)
Definition samplePull (secrets : gmap string string) (live_ : bool) : MigrationSinkArgs :=
  mkMigrationSinkArgs "https://source.example/1.0/operations/op" 1%positive
    (Some (sampleInstance Container true (Returns None))) false secrets false live_ false.

(** Collaborators like [sampleEnv false None], except that the dial
    number [k] (counting from 0) is refused. *)
Definition refusedDialEnv (k : nat) : Env :=
  mkEnv
    (randomCryptoString (sampleEnv false None))
    (fun _ => None) None false (fun _ _ _ => None) None None
    (fun n _ => if Nat.eqb n k then inr (ErrText "websocket: bad handshake")
                else inl (Pos.of_nat (S n))).

(** The sample sessions of the statements below: a stopped container, a
    container whose transfer fails with a full disk, a source that is half
    or fully connected, a connected push-mode sink and a live pull-mode
    sink. *)
Definition stoppedContainer : Instance := sampleInstance Container false (Returns None).
Definition runningContainer : Instance := sampleInstance Container true (Returns None).
Definition fullDisk : error := ErrText "no space left on device".
Definition failingContainer : Instance :=
  sampleInstance Container false (Returns (Some fullDisk)).
Definition halfConnectedSource : migrationSourceWs :=
  sampleSource stoppedContainer (Some 1%positive) None.
Definition connectedSource : migrationSourceWs :=
  sampleSource stoppedContainer (Some 1%positive) (Some 2%positive).
Definition failingSource : migrationSourceWs :=
  sampleSource failingContainer (Some 1%positive) (Some 2%positive).
Definition pushSink : migrationSink :=
  sampleSink runningContainer true true (Some 1%positive) (Some 2%positive).
Definition pullSink : migrationSink :=
  sampleSink runningContainer false true None None.

(** ** The OVN southbound lookup *)

(** [OVNRouterPort] is a string type. *)
Definition OVNRouterPort : Type := string.

(** The rows of the southbound schema, with the columns the lookup sets or
    reads: [Chassis] of a port binding is an optional reference (a UUID). *)
Record ovnSB_PortBinding : Type := mkPortBinding {
  LogicalPort : string;
  Chassis : option string
}.

Record ovnSB_Chassis : Type := mkChassis {
  UUID : string;
  Hostname : string
}.

(** The database client, as the lookup uses it: [Get] is given a row with
    its index column set and either fills it in from the database or
    reports an error.  One function per table the lookup queries. *)
Record SBClient : Type := mkSBClient {
  GetPortBinding : ovnSB_PortBinding -> ovnSB_PortBinding + error;
  GetChassis : ovnSB_Chassis -> ovnSB_Chassis + error
}.

(** [SB]. *)
Record SB : Type := mkSB { client : SBClient }.

(** The queries a lookup sends, in order. *)
Inductive sbQuery : Type :=
| QueryPortBinding (row : ovnSB_PortBinding)
| QueryChassis (row : ovnSB_Chassis).

(** [SB.GetLogicalRouterPortActiveChassisHostname]: the two results of the
    Go function, and the queries made. *)
Definition GetLogicalRouterPortActiveChassisHostname (o : SB) (ovnRouterPort : OVNRouterPort)
  : (string * option error) * list sbQuery :=
  let pb := mkPortBinding ("cr-" +:+ ovnRouterPort) None in
  match GetPortBinding (client o) pb with
  | inr err => (("", Some err), [QueryPortBinding pb])
  | inl pb' =>
      match Chassis pb' with
      | None => (("", Some (ErrText "No chassis found")), [QueryPortBinding pb])
      | Some uuid =>
          let chassis := mkChassis uuid "" in
          match GetChassis (client o) chassis with
          | inr err => (("", Some err), [QueryPortBinding pb; QueryChassis chassis])
          | inl chassis' =>
              ((Hostname chassis', None), [QueryPortBinding pb; QueryChassis chassis])
          end
      end
  end.

(** A client over an in-memory copy of the two tables, port bindings
    indexed by logical port and chassis by UUID; a row that is not there
    is reported with the client's not-found error. *)
Definition ErrNotFound : error := ErrText "object not found".

Definition tableClient (bindings : gmap string ovnSB_PortBinding)
    (chassis : gmap string ovnSB_Chassis) : SBClient :=
  mkSBClient
    (fun pb => match bindings !! LogicalPort pb with
               | Some row => inl row
               | None => inr ErrNotFound
               end)
    (fun c => match chassis !! UUID c with
              | Some row => inl row
              | None => inr ErrNotFound
              end).

(** The row that binds the gateway port of a router port to a chassis. *)
Definition boundTo (ovnRouterPort : OVNRouterPort) (uuid : option string) : ovnSB_PortBinding :=
  mkPortBinding ("cr-" +:+ ovnRouterPort) uuid.

(** ** Endings and trace shapes *)

(** How a run of [Do] ends. *)
Inductive ending : Type :=
| Ends (r : option error)
| Hangs
| Panics.

Definition endingOf {T} (o : Outcome T (option error)) : ending :=
  match o with
  | Returned r _ => Ends r
  | Blocked _ => Hangs
  | Panicked _ => Panics
  end.

Definition endOf (x : session) (e : Env) (t0 : Z) : ending :=
  match x with
  | SourceSession s migrateOp => endingOf (sourceDo migrateOp (start s e t0))
  | SinkSession c instOp => endingOf (sinkDo instOp (start c e t0))
  end.

(** The instance a session transfers: the source's own, the sink's [src]. *)
Definition sessionInstance (x : session) : option Instance :=
  match x with
  | SourceSession s _ => instance (sourceFields s)
  | SinkSession c _ => instance (src c)
  end.

Definition isLog (e : Event) : bool :=
  match e with EvLog _ _ => true | _ => false end.

(** Once a connection has been closed, nothing but further closes and log
    lines follows. *)
Fixpoint quietAfterClose (evs : list Event) : bool :=
  match evs with
  | [] => true
  | ev :: rest =>
      if isClose ev then forallb (fun ev' => isClose ev' || isLog ev') rest
      else quietAfterClose rest
  end.

(** The last event of a run is a call into the instance driver. *)
Definition endsInDriver (evs : list Event) : bool :=
  match last evs with
  | Some ev => isMigrateSend ev || isMigrateReceive ev
  | None => false
  end.

Definition isDriverCall (e : Event) : bool := isMigrateSend e || isMigrateReceive e.

(** The contexts [Do] wraps errors with, and the errors [Do] makes: the
    timeout error, or a cause wrapped with one of the contexts. *)
Definition doContexts : list string :=
  ["Failed migration on source"; "Failed migration on target";
   "Failed connecting control sink socket"; "Failed connecting filesystem sink socket";
   "Failed connecting CRIU sink socket"]%string.

Definition madeByDo (err : error) : bool :=
  match err with
  | ErrText msg => String.eqb msg "Timed out waiting for migration connections"
  | ErrWrap context _ => existsb (String.eqb context) doContexts
  | _ => false
  end.

(** What holds at the end of every run of a [Do] method, whatever the
    collaborators do, stated on what the run leaves behind (the channel
    state in use, the closed connections, the events, the ending): only
    held connections were closed; nothing but closes and log lines follows
    a close; the driver was called at most once, and exactly once when
    [Do] returns nil; at most one control message was written, and nothing
    was read without one; a run that hangs hangs in the driver; a run that
    panics had no instance; and a returned error was made by [Do]. *)
Definition behavesWell (inst : option Instance) (fields : migrationFields)
    (closedConns : gset WsConn) (evs : list Event) (ended : ending) : Prop :=
  (forall conn, conn ∈ closedConns -> conn ∈ heldConns fields) /\
  quietAfterClose evs = true /\
  (length (List.filter isDriverCall evs) <= 1)%nat /\
  (ended = Ends None -> length (List.filter isDriverCall evs) = 1%nat) /\
  (length (List.filter isWriteControl evs) <= 1)%nat /\
  (List.filter isReadMessage evs <> [] -> List.filter isWriteControl evs <> []) /\
  (ended = Hangs -> endsInDriver evs = true) /\
  (ended = Panics -> inst = None) /\
  (forall err, ended = Ends (Some err) -> madeByDo err = true).

Definition wellBehaved {T} (inst : option Instance) (used : T -> migrationFields)
    (o : Outcome T (option error)) : Prop :=
  behavesWell inst (used (self (final o))) (closed (final o)) (events (trace (final o)))
    (endingOf o).

(** The answer of the instance driver to the call an event records, and
    the context each side wraps a transfer error with. *)
Definition driverAnswer (i : Instance) (ev : Event) : option callResult :=
  match ev with
  | EvMigrateSend args => Some (MigrateSend i args)
  | EvMigrateReceive args => Some (MigrateReceive i args)
  | _ => None
  end.

Definition sideContext (x : session) : string :=
  match x with
  | SourceSession _ _ => "Failed migration on source"
  | SinkSession _ _ => "Failed migration on target"
  end.

Definition afterDriver (x : session) (answer : callResult) : ending :=
  match answer with
  | Returns None => Ends None
  | Returns (Some err) => Ends (Some (ErrWrap (sideContext x) err))
  | NeverReturns => Hangs
  end.

(** A driver whose [MigrateSend] never returns. *)
Definition stuckContainer : Instance := sampleInstance Container false NeverReturns.
Definition stuckSource : migrationSourceWs :=
  sampleSource stuckContainer (Some 1%positive) (Some 2%positive).

(** A source session without an instance. *)
Definition orphanSource : migrationSourceWs :=
  mkMigrationSourceWs (setControlConn (Some 1%positive) zeroFields) ChanMade.

(** Once the driver has been called, [Do] ends as the driver answers. *)
Definition followsDriver {T} (x : session) (i : Instance) (o : Outcome T (option error))
  : Prop :=
  forall ev answer,
    In ev (events (trace (final o))) ->
    driverAnswer i ev = Some answer ->
    endingOf o = afterDriver x answer.

(** The failure notice for [err] was accepted by the control connection of
    the source session. *)
Definition noticeAccepted (e : Env) (s : migrationSourceWs) (err : error) : bool :=
  negb (errors_As_CloseError err) &&
  match controlConn (sourceFields s) with
  | Some cc => isNil (writeControl e 0 cc (failureNotice err))
  | None => false
  end.

(** The reads of a run are one read if [accepted], and none otherwise;
    the control writes are one write of [notice] on [conn] if [attempted],
    and none otherwise. *)
Definition handshake {T} (accepted attempted : bool) (conn : option WsConn)
    (notice : MigrationControl) (o : Outcome T (option error)) : Prop :=
  List.filter isReadMessage (events (trace (final o)))
    = (if accepted then match conn with Some c => [EvReadMessage c] | None => [] end
       else []) /\
  List.filter isWriteControl (events (trace (final o)))
    = (if attempted
       then match conn with Some c => [EvWriteControl c notice] | None => [] end
       else []).

(** ** What the constructors build *)

Definition requestInstance (r : request) : option Instance :=
  match r with
  | SourceRequest inst _ _ _ => inst
  | SinkRequest args => ArgInstance args
  end.

Definition runningOpt (inst : option Instance) : bool :=
  match inst with Some i => IsRunning i | None => false end.

Definition containerOpt (inst : option Instance) : bool :=
  match inst with Some i => bool_decide (Type_ i = Container) | None => false end.

Definition hasKey (m : gmap string string) (k : string) : bool :=
  match m !! k with Some _ => true | None => false end.

(** The n-th secret the entropy source hands out, empty if it fails. *)
Definition secret (e : Env) (n : nat) : string := valueOf "" (randomCryptoString e n).

(** The session [newMigrationSource] returns when it returns one. *)
Definition sourceBuilt (inst : option Instance) (stateful instanceOnly_ allowInconsistent_ : bool)
    (e : Env) : migrationSourceWs :=
  let live_ := stateful && runningOpt inst in
  mkMigrationSourceWs
    (mkMigrationFields (secret e 0) None
       (if live_ && containerOpt inst then secret e 2 else "") None
       (secret e 1) None inst live_ instanceOnly_ allowInconsistent_)
    ChanMade.

(** The session [newMigrationSink] returns when it returns one. *)
Definition sinkBuilt (args : MigrationSinkArgs) (e : Env) : migrationSink :=
  let only := ArgInstanceOnly args in
  let m := ArgSecrets args in
  if ArgPush args then
    mkMigrationSink
      (mkMigrationFields "" None "" None "" None (ArgInstance args) false only false)
      (mkMigrationFields (secret e 0) None
         (if ArgLive args then secret e 2 else "") None
         (secret e 1) None None (ArgLive args) only false)
      (ArgURL args) (ArgDialer args) ChanMade true (ArgRefresh args)
  else
    mkMigrationSink
      (mkMigrationFields (default "" (m !! "control")) None
         (default "" (m !! "criu")) None
         (default "" (m !! "fs")) None (ArgInstance args)
         (hasKey m "criu" || ArgLive args) only false)
      (mkMigrationFields "" None "" None "" None None false only false)
      (ArgURL args) (ArgDialer args) ChanNil false (ArgRefresh args).

(** A constructor returns either an error and no session, or the expected
    session and no error. *)
Definition buildsOnly {T R} (expected : R) (o : Outcome T (option R * option error)) : Prop :=
  forall b err,
    returned o = Some (b, err) ->
    (b = None /\ err <> None) \/ (b = Some expected /\ err = None).

(** [args] with another secret mapping. *)
Definition withSecrets (m : gmap string string) (args : MigrationSinkArgs) : MigrationSinkArgs :=
  mkMigrationSinkArgs (ArgURL args) (ArgDialer args) (ArgInstance args) (ArgInstanceOnly args)
    m (ArgPush args) (ArgLive args) (ArgRefresh args).

(** The connection handler fills in the connections of a source session. *)
Definition connectSource (control fs criu : option WsConn) (s : migrationSourceWs)
  : migrationSourceWs :=
  onSourceFields (fun f => setCriuConn criu (setFsConn fs (setControlConn control f))) s.

(** Every lookup of an executable a constructor makes is the lookup of
    [criu], and is made only if [cond] holds. *)
Definition looksUpOnlyIf {T A} (cond : bool) (o : Outcome T A) : Prop :=
  forall file, In (EvLookPath file) (events (trace (final o))) ->
               file = "criu"%string /\ cond = true.

(** A constructor returns the unsupported error of [r] only to a request
    that wants liveness on a container, on a host without [criu]. *)
Definition unsupportedOnlyIfWanted {T R} (r : request) (e : Env)
    (o : Outcome T (option R * option error)) : Prop :=
  forall b, returned o = Some (b, Some (unsupported r)) ->
            wantsLiveContainer r /\ criuAbsent e.

(** When a source request asks for a lookup of [criu]. *)
Definition needsCriu (r : request) : bool :=
  match r with
  | SourceRequest inst stateful _ _ => stateful && runningOpt inst && containerOpt inst
  | SinkRequest args => containerOpt (ArgInstance args)
  end.

(** The secrets of a remote descriptor without a live-state secret. *)
Definition suppliedSecrets : gmap string string :=
  <[ "control"%string := "Zm9vYmFy"%string ]> (<[ "fs"%string := "YmFyYmF6"%string ]> ∅).

(** The dials of a run are one of three lists. *)
Definition dialsAmong {T A} (l1 l2 l3 : list Event) (o : Outcome T A) : Prop :=
  let dials := List.filter isDial (events (trace (final o))) in
  dials = l1 \/ dials = l2 \/ dials = l3.

(** ** Proof support *)

Lemma neverConnects_timer (e : Env) (ch : chan) (t0 timeout : Z) :
  neverConnects e ch ->
  channelWins e ch t0 timeout = false /\ selectEnds e ch t0 timeout = t0 + timeout.
Proof. unfold neverConnects, channelWins, selectEnds. intros ->. done. Qed.

(** [disconnect] touches neither the receiver nor the clock. *)
Lemma disconnect_self {T} (f : migrationFields) (st : Sys T) :
  self (disconnect f st) = self st.
Proof. unfold disconnect, closeIfSet. repeat case_match; reflexivity. Qed.

Lemma disconnect_clock {T} (f : migrationFields) (st : Sys T) :
  clock (disconnect f st) = clock st.
Proof. unfold disconnect, closeIfSet. repeat case_match; reflexivity. Qed.

Lemma disconnect_closes {T} (f : migrationFields) (st : Sys T) (conn : WsConn) :
  conn ∈ heldConns f -> conn ∈ closed (disconnect f st).
Proof.
  unfold heldConns, disconnect, closeIfSet.
  destruct (controlConn f), (fsConn f), (criuConn f); cbn;
    rewrite ?elem_of_cons, ?elem_of_nil, ?elem_of_union, ?elem_of_singleton; tauto.
Qed.

#[local] Arguments heldConns : simpl never.

(** Rewrite with every equation of the context whose left-hand side occurs
    in the goal, simplifying in between. *)
Ltac use_facts :=
  repeat (cbn;
          match goal with
          | H : ?l = _ |- context [?l] => progress rewrite H
          end);
  cbn.

Ltac unfold_go :=
  unfold calls, runDo, report, sourceDo, sinkDo, newMigrationSource, newMigrationSink,
    call, bind, ret, getSelf, getClock, modifySelf, start, selectOrTimeout, send,
    sendControl, failureNotice, errTimedOut, proto_Bool, proto_String,
    connectsInTime, sinkFields in *.

(** Split on the connections a channel state holds, which decides what
    [disconnect] closes. *)
Ltac split_conns f :=
  unfold disconnect;
  destruct (controlConn f) eqn:?, (fsConn f) eqn:?, (criuConn f) eqn:?; cbn.

(** What [disconnect] does depends only on which connections are set:
    unfold it and split on each connection field it inspects. *)
Ltac close_all :=
  unfold disconnect, closeIfSet; cbn;
  repeat (match goal with
          | |- context [match ?x with Some _ => _ | None => _ end] => destruct x eqn:?
          end; cbn).

(** The run ended by [disconnect] on the channel state in use (possibly
    followed by a log line): what that state holds is closed. *)
Ltac closed_by_disconnect :=
  let Hin := fresh "Hin" in
  intros _ Hin; cbn in *;
  rewrite ?disconnect_self in Hin; cbn in Hin;
  repeat match goal with
         | H : ?l = _, Hin : context [?l] |- _ => rewrite H in Hin; cbn in Hin
         end;
  first
    [ apply disconnect_closes; exact Hin
    | revert Hin; unfold heldConns; cbn;
      rewrite ?elem_of_cons, ?elem_of_nil, ?elem_of_union, ?elem_of_singleton; tauto ].

(** ** The connection wait *)

(** C4: when the all-connected signal never fires, the source [Do] returns
    the timeout error ten seconds after it started, having neither marked
    the instance with the operation nor invoked [MigrateSend]; the push-mode
    sink [Do] returns the same error after the same bound without invoking
    [MigrateReceive]. *)
Theorem Do_times_out_without_transfer
    (s : migrationSourceWs) (c : migrationSink) (e : Env) (t0 : Z)
    (migrateOp : option Operation) (instOp : option InstanceOperation)
    (i j : Instance) :
  instance (sourceFields s) = Some i ->
  neverConnects e (sourceAllConnected s) ->
  instance (src c) = Some j ->
  push c = true ->
  neverConnects e (sinkAllConnected c) ->
  let o := sourceDo migrateOp (start s e t0) in
  let o' := sinkDo instOp (start c e t0) in
  (returned o = Some (Some errTimedOut) /\
   clock (final o) = t0 + 10000 /\
   calls (fun ev => isSetOperation ev || isMigrateSend ev) o = []) /\
  (returned o' = Some (Some errTimedOut) /\
   clock (final o') = t0 + 10000 /\
   calls isMigrateReceive o' = []).
Proof.
  intros Hi Hs Hj Hp Hc o o'. subst o o'.
  destruct (neverConnects_timer e _ t0 (1000 * 10) Hs) as [Hw He].
  destruct (neverConnects_timer e _ t0 (1000 * 10) Hc) as [Hw' He'].
  split; unfold_go; use_facts; done.
Qed.

(** The half-connected source and the push-mode sink both time out when the
    signal never fires. *)
Lemma Do_times_out_without_transfer_witness :
  returned (sourceDo None (start halfConnectedSource (sampleEnv false None) 0))
    = Some (Some errTimedOut) /\
  returned (sinkDo None (start pushSink (sampleEnv false None) 0))
    = Some (Some errTimedOut).
Proof.
  pose proof (Do_times_out_without_transfer halfConnectedSource pushSink
                (sampleEnv false None) 0 None None stoppedContainer runningContainer
                eq_refl eq_refl eq_refl eq_refl eq_refl) as H.
  split; [exact (proj1 (proj1 H)) | exact (proj1 (proj2 H))].
Defined.

(** The timeout error is distinct: [Do] returns it on no other path than
    the timer case of the connection wait. *)
Lemma timeout_error_only_after_timeout (x : session) (e : Env) (t0 : Z) :
  repReturned (runDo x e t0) = Some (Some errTimedOut) ->
  match x with
  | SourceSession s _ => channelWins e (sourceAllConnected s) t0 (1000 * 10) = false
  | SinkSession c _ =>
      push c = true /\ channelWins e (sinkAllConnected c) t0 (1000 * 10) = false
  end.
Proof.
  destruct x as [s migrateOp | c instOp].
  - unfold_go. cbn.
    destruct (instance (sourceFields s)) as [i|]; cbn; [| intros [=]].
    destruct (channelWins e _ t0 _) eqn:Hw; cbn; [| reflexivity].
    destruct (instance (sourceFields s)) as [i'|]; cbn; [| intros [=]].
    destruct (MigrateSend i' (sourceSendArgs s)) as [[err|]|]; cbn; [| intros [=] ..].
    destruct (errors_As_CloseError err); cbn; [intros [=]|].
    destruct (controlConn (sourceFields s)) as [cc|]; cbn; [| intros [=]].
    destruct (writeControl e 0 cc _); cbn; [intros [=]|].
    rewrite lookup_insert_eq.
    destruct (peerReplyAfter e) as [d|]; [destruct (_ <=? _)|]; cbn; intros [=].
  - unfold_go. cbn.
    destruct (instance (src c)) as [i|] eqn:Hi; cbn; [| intros [=]].
    destruct (push c) eqn:Hp; cbn.
    + destruct (channelWins e _ t0 _) eqn:Hw; cbn; [| intros _; split; reflexivity].
      rewrite Hi. cbn.
      destruct (MigrateReceive i _) as [[err|]|]; cbn; intros [=].
    + destruct (dial e 0 _) as [cc|e1]; cbn; [| intros [=]].
      destruct (dial e 1 _) as [fc|e2]; cbn; [| intros [=]].
      destruct (live (src c)); cbn; rewrite ?Hi; cbn.
      * destruct (bool_decide (Type_ i = Container)); cbn.
        -- destruct (dial e 2 _) as [rc|e3]; cbn; [| intros [=]].
           rewrite Hi. cbn.
           destruct (MigrateReceive i _) as [[err|]|]; cbn; intros [=].
        -- rewrite Hi. cbn. destruct (MigrateReceive i _) as [[err|]|]; cbn; intros [=].
      * destruct (MigrateReceive i _) as [[err|]|]; cbn; intros [=].
Qed.

(** ** The transfer on the source *)

(** C8: a source session with live=false and instanceOnly=false whose
    channels all connect marks the instance with the migration operation
    and then invokes [MigrateSend] exactly once, with Snapshots=true and
    Live=false; when the callback returns nil, [Do] returns nil. *)
Theorem source_Do_round_trip
    (s : migrationSourceWs) (e : Env) (t0 : Z) (migrateOp : option Operation)
    (i : Instance) :
  instance (sourceFields s) = Some i ->
  live (sourceFields s) = false ->
  instanceOnly (sourceFields s) = false ->
  connectsInTime e (sourceAllConnected s) t0 ->
  let o := sourceDo migrateOp (start s e t0) in
  let args := sourceSendArgs s in
  calls (fun ev => isSetOperation ev || isMigrateSend ev) o
    = [EvSetOperation migrateOp; EvMigrateSend args] /\
  Snapshots (SendMigrateArgs args) = true /\
  Live (SendMigrateArgs args) = false /\
  (MigrateSend i args = Returns None -> returned o = Some None).
Proof.
  intros Hi Hl Ho Hc o args. subst o args.
  split; [| split; [| split]].
  - unfold_go. use_facts.
    destruct (MigrateSend i (sourceSendArgs s)) as [[err|]|]; cbn.
    + destruct (errors_As_CloseError err); cbn.
      * split_conns (sourceFields s); reflexivity.
      * destruct (controlConn (sourceFields s)) as [cc|] eqn:Hcc; cbn.
        -- destruct (writeControl e 0 cc _); cbn.
           ++ split_conns (sourceFields s); reflexivity.
           ++ rewrite lookup_insert_eq.
              destruct (peerReplyAfter e) as [d|]; [destruct (_ <=? _)|]; cbn;
                split_conns (sourceFields s); reflexivity.
        -- split_conns (sourceFields s); reflexivity.
    + split_conns (sourceFields s); reflexivity.
    + reflexivity.
  - unfold sourceSendArgs. cbn. rewrite Ho. reflexivity.
  - unfold sourceSendArgs. cbn. exact Hl.
  - intros Hm. unfold_go. use_facts. reflexivity.
Qed.

(** The connected source with a driver that returns nil. *)
Lemma source_Do_round_trip_witness :
  calls (fun ev => isSetOperation ev || isMigrateSend ev)
    (sourceDo (Some 7%positive) (start connectedSource (sampleEnv false (Some 0)) 0))
    = [EvSetOperation (Some 7%positive); EvMigrateSend (sourceSendArgs connectedSource)] /\
  returned (sourceDo (Some 7%positive) (start connectedSource (sampleEnv false (Some 0)) 0))
    = Some None.
Proof.
  pose proof (source_Do_round_trip connectedSource (sampleEnv false (Some 0)) 0
                (Some 7%positive) stoppedContainer eq_refl eq_refl eq_refl eq_refl) as H.
  split; [exact (proj1 H) | exact (proj2 (proj2 (proj2 H)) eq_refl)].
Defined.

(** C1: when [MigrateSend] returns a non-nil error that is not a websocket
    close error, the source [Do] writes exactly one control message, with
    success=false and the error's text, on the control channel; when the
    error is a close error it writes none. *)
Theorem source_Do_notifies_unless_closed
    (s : migrationSourceWs) (e : Env) (t0 : Z) (migrateOp : option Operation)
    (i : Instance) (cc : WsConn) (err : error) :
  instance (sourceFields s) = Some i ->
  controlConn (sourceFields s) = Some cc ->
  connectsInTime e (sourceAllConnected s) t0 ->
  MigrateSend i (sourceSendArgs s) = Returns (Some err) ->
  let o := sourceDo migrateOp (start s e t0) in
  calls isWriteControl o
    = (if errors_As_CloseError err then []
       else [EvWriteControl cc (failureNotice err)]) /\
  Success (failureNotice err) = Some false /\
  Message (failureNotice err) = Some (Error err).
Proof.
  intros Hi Hcc Hc Hm o. subst o.
  split; [| split; reflexivity].
  unfold_go. use_facts.
  destruct (errors_As_CloseError err); cbn.
  - split_conns (sourceFields s); reflexivity.
  - use_facts.
    destruct (writeControl e 0 cc _); cbn.
    + split_conns (sourceFields s); reflexivity.
    + rewrite lookup_insert_eq.
      destruct (peerReplyAfter e) as [d|]; [destruct (_ <=? _)|]; cbn;
        split_conns (sourceFields s); reflexivity.
Qed.

(** The source whose transfer fails with a full disk reports it. *)
Lemma source_Do_notifies_unless_closed_witness :
  calls isWriteControl (sourceDo None (start failingSource (sampleEnv false (Some 0)) 0))
    = [EvWriteControl 1%positive (failureNotice fullDisk)].
Proof.
  exact (proj1 (source_Do_notifies_unless_closed failingSource (sampleEnv false (Some 0)) 0
                  None failingContainer 1%positive fullDisk
                  eq_refl eq_refl eq_refl eq_refl)).
Defined.

(** C2: when the failure notice is sent successfully, the source [Do] sets
    a read deadline five seconds ahead, reads the control channel once,
    returns no later than that deadline, and returns the transfer error
    wrapped with the source context, whatever the read does (an answer, an
    error, or nothing at all from the peer). *)
Theorem source_Do_ack_wait_bounded
    (s : migrationSourceWs) (e : Env) (t0 : Z) (migrateOp : option Operation)
    (i : Instance) (cc : WsConn) (err : error) :
  instance (sourceFields s) = Some i ->
  controlConn (sourceFields s) = Some cc ->
  connectsInTime e (sourceAllConnected s) t0 ->
  MigrateSend i (sourceSendArgs s) = Returns (Some err) ->
  errors_As_CloseError err = false ->
  writeControl e 0 cc (failureNotice err) = None ->
  let o := sourceDo migrateOp (start s e t0) in
  returned o = Some (Some (ErrWrap "Failed migration on source" err)) /\
  calls isReadMessage o = [EvReadMessage cc] /\
  exists t,
    In (t, EvSetReadDeadline cc (t + 5000)) (trace (final o)) /\
    In (t, EvReadMessage cc) (trace (final o)) /\
    t <= clock (final o) <= t + 5000.
Proof.
  intros Hi Hcc Hc Hm Hne Hw o. subst o.
  unfold_go. use_facts. rewrite lookup_insert_eq.
  set (t := selectEnds e (sourceAllConnected s) t0 (1000 * 10)).
  destruct (peerReplyAfter e) as [d|]; [destruct (Z.leb_spec (t + Z.of_N d) (t + 1000 * 5))|];
    cbn; (split; [reflexivity|]);
    (split; [split_conns (sourceFields s); try discriminate; reflexivity|]);
    exists t; unfold disconnect; rewrite Hcc;
    destruct (fsConn (sourceFields s)), (criuConn (sourceFields s)); cbn;
    rewrite ?in_app_iff; cbn; intuition lia.
Qed.

(** The same source with a peer that never acknowledges. *)
Lemma source_Do_ack_wait_bounded_witness :
  returned (sourceDo None (start failingSource (sampleEnv false (Some 0)) 0))
    = Some (Some (ErrWrap "Failed migration on source" fullDisk)).
Proof.
  exact (proj1 (source_Do_ack_wait_bounded failingSource (sampleEnv false (Some 0)) 0
                  None failingContainer 1%positive fullDisk
                  eq_refl eq_refl eq_refl eq_refl eq_refl eq_refl)).
Defined.

(** ** The connection phase of a pull-mode sink *)

(** C3: a pull-mode sink dials with the control secret, then the
    filesystem secret, then, only when the session is live and the instance
    is a container, the live-state secret.  The first failing dial ends
    [Do] with the dial error wrapped with the name of the channel, and no
    later dial and no transfer takes place.  After a filesystem or
    live-state failure the wrapped error is written, as a success=false
    control message, on the control connection before [Do] returns; after
    a control failure nothing is written. *)
Theorem sink_Do_pull_dials_in_order
    (c : migrationSink) (e : Env) (t0 : Z) (instOp : option InstanceOperation)
    (i : Instance) :
  push c = false ->
  instance (src c) = Some i ->
  let o := sinkDo instOp (start c e t0) in
  let control := EvDial (controlSecret (src c)) in
  let fs := EvDial (fsSecret (src c)) in
  let criu := EvDial (criuSecret (src c)) in
  let waiting := EvLog "info" "Waiting for migration channel connections on target" in
  match dial e 0 (controlSecret (src c)) with
  | inr e1 =>
      let err := ErrWrap "Failed connecting control sink socket" e1 in
      returned o = Some (Some err) /\
      calls (fun ev => negb (isClose ev)) o = [waiting; control]
  | inl cc =>
      match dial e 1 (fsSecret (src c)) with
      | inr e2 =>
          let err := ErrWrap "Failed connecting filesystem sink socket" e2 in
          returned o = Some (Some err) /\
          calls (fun ev => negb (isClose ev)) o
            = [waiting; control; fs; EvWriteControl cc (failureNotice err)]
      | inl fc =>
          if live (src c) && bool_decide (Type_ i = Container) then
            match dial e 2 (criuSecret (src c)) with
            | inr e3 =>
                let err := ErrWrap "Failed connecting CRIU sink socket" e3 in
                returned o = Some (Some err) /\
                calls (fun ev => negb (isClose ev)) o
                  = [waiting; control; fs; criu; EvWriteControl cc (failureNotice err)]
            | inl rc => calls isDial o = [control; fs; criu]
            end
          else calls isDial o = [control; fs]
      end
  end.
Proof.
  intros Hp Hi o. subst o. cbn zeta.
  destruct (dial e 0 _) as [cc|e1] eqn:H0.
  2: { unfold_go. use_facts. split; [reflexivity|].
       destruct c as [[] ? ? ? ? ? ?]; cbn in *. reflexivity. }
  destruct (dial e 1 _) as [fc|e2] eqn:H1.
  2: { unfold_go. use_facts. split; [reflexivity|]. close_all; reflexivity. }
  destruct (live (src c)) eqn:Hl; cbn.
  2: { unfold_go. use_facts.
       destruct (MigrateReceive i _) as [[err|]|]; cbn; close_all; reflexivity. }
  destruct (bool_decide (Type_ i = Container)) eqn:Ht.
  2: { unfold_go. use_facts.
       destruct (MigrateReceive i _) as [[err|]|]; cbn; close_all; reflexivity. }
  destruct (dial e 2 _) as [rc|e3] eqn:H2.
  2: { unfold_go. use_facts. split; reflexivity. }
  unfold_go. use_facts.
  destruct (MigrateReceive i _) as [[err|]|]; reflexivity.
Qed.

(** The pull-mode sink whose filesystem dial is refused. *)
Lemma sink_Do_pull_dials_in_order_witness :
  returned (sinkDo None (start pullSink (refusedDialEnv 1) 0))
    = Some (Some (ErrWrap "Failed connecting filesystem sink socket"
                    (ErrText "websocket: bad handshake"))) /\
  calls (fun ev => negb (isClose ev)) (sinkDo None (start pullSink (refusedDialEnv 1) 0))
    = [EvLog "info" "Waiting for migration channel connections on target";
       EvDial "s"; EvDial "ss";
       EvWriteControl 1%positive
         (failureNotice (ErrWrap "Failed connecting filesystem sink socket"
                           (ErrText "websocket: bad handshake")))].
Proof.
  exact (sink_Do_pull_dials_in_order pullSink (refusedDialEnv 1) 0 None runningContainer
           eq_refl eq_refl).
Defined.

(** ** The transfer on the sink *)

(** C9: once its channels are ready, the sink [Do] invokes [MigrateReceive]
    once, with the control send and receive functions, the live-state
    connection and the filesystem connection of [dest] in push mode and of
    [src] in pull mode, with the liveness flag of that same side, and with
    the operation lock and the refresh flag it was given.  In push mode
    that side is [dest] as [Do] found it; in pull mode it is [src] with the
    connections the dials returned. *)
Theorem sink_Do_receive_args
    (c : migrationSink) (e : Env) (t0 : Z) (instOp : option InstanceOperation)
    (i : Instance) :
  instance (src c) = Some i ->
  channelsReady e c i t0 ->
  let o := sinkDo instOp (start c e t0) in
  let side := if push c then OfSinkDest else OfSinkSrc in
  let used := sinkFields (self (final o)) in
  exists args,
    calls isMigrateReceive o = [EvMigrateReceive args] /\
    ControlSend (ReceiveMigrateArgs args) = SendOf side /\
    ControlReceive (ReceiveMigrateArgs args) = RecvOf side /\
    LiveConn (ReceiveMigrateArgs args) = mkWebsocketIO (criuConn used) /\
    DataConn (ReceiveMigrateArgs args) = mkWebsocketIO (fsConn used) /\
    Live (ReceiveMigrateArgs args) = live used /\
    ArgInstanceOperation args = instOp /\
    Refresh args = refresh c /\
    (push c = false ->
     controlConn used = connOf (dial e 0 (controlSecret (src c))) /\
     fsConn used = connOf (dial e 1 (fsSecret (src c))) /\
     live used = live (src c)) /\
    (push c = true -> used = dest c).
Proof.
  intros Hi Hr o. subst o. unfold channelsReady in Hr. cbn zeta.
  destruct (push c) eqn:Hp.
  - unfold_go. use_facts.
    destruct (MigrateReceive i _) as [[err|]|] eqn:Hm; cbn;
      (eexists; split; [close_all; reflexivity|]);
      rewrite ?disconnect_self; use_facts; intuition congruence.
  - destruct Hr as (cc & fc & H0 & H1 & H2).
    destruct (live (src c) && bool_decide (Type_ i = Container)) eqn:Hlc.
    + destruct (H2 eq_refl) as [rc H3].
      apply andb_true_iff in Hlc as [Hl Ht].
      unfold_go. use_facts.
      destruct (MigrateReceive i _) as [[err|]|] eqn:Hm; cbn;
        (eexists; split; [close_all; reflexivity|]);
      rewrite ?disconnect_self; use_facts; intuition congruence.
    + clear H2.
      destruct (live (src c)) eqn:Hl; cbn in Hlc; [| clear Hlc]; unfold_go; use_facts;
        destruct (MigrateReceive i _) as [[err|]|] eqn:Hm; cbn;
        (eexists; split; [close_all; reflexivity|]);
      rewrite ?disconnect_self; use_facts; intuition congruence.
Qed.

(** The connected live push-mode sink. *)
Lemma sink_Do_receive_args_witness :
  exists args,
    calls isMigrateReceive (sinkDo (Some 3%positive) (start pushSink (sampleEnv false (Some 0)) 0))
      = [EvMigrateReceive args] /\
    Live (ReceiveMigrateArgs args) = true /\
    ArgInstanceOperation args = Some 3%positive.
Proof.
  destruct (sink_Do_receive_args pushSink (sampleEnv false (Some 0)) 0 (Some 3%positive)
              runningContainer eq_refl eq_refl)
    as (args & Hcalls & _ & _ & _ & _ & Hlive & Hop & _).
  exists args. split; [exact Hcalls|]. split; [exact Hlive | exact Hop].
Defined.

(** ** Cleanup on exit *)

(** A source session whose control channel connected but whose filesystem
    channel never did: the wait times out and [Do] returns with the control
    connection still open. *)
Lemma timeout_leaves_channel_open :
  repReturned (runDo (SourceSession halfConnectedSource None) (sampleEnv false None) 0)
    = Some (Some errTimedOut) /\
  1%positive ∈
    heldConns (repFields (runDo (SourceSession halfConnectedSource None) (sampleEnv false None) 0)) /\
  1%positive ∉ repClosed (runDo (SourceSession halfConnectedSource None) (sampleEnv false None) 0).
Proof.
  split; [reflexivity|]. split.
  - apply list_elem_of_here.
  - cbn. apply not_elem_of_empty.
Qed.

(** C5 (amended): on every exit of [Do] taken after its cleanup was
    registered (success, transfer error, filesystem or live-state dial
    error), every connection held in the channel state the session uses is
    closed when [Do] returns; the same holds for the control-dial failure
    of a pull-mode sink that held no data channel, which then holds no
    connection at all. *)
Theorem Do_closes_channels_once_connected
    (x : session) (e : Env) (t0 : Z) (conn : WsConn) :
  cleanupRegistered x e t0 \/ holdsNoDataChannel x ->
  is_Some (repReturned (runDo x e t0)) ->
  conn ∈ heldConns (repFields (runDo x e t0)) ->
  conn ∈ repClosed (runDo x e t0).
Proof.
  destruct x as [s migrateOp | c instOp]; cbn [cleanupRegistered holdsNoDataChannel].
  - intros [Hc | []]. unfold_go. cbn.
    destruct (instance (sourceFields s)) as [i|] eqn:Hi; cbn; [| intros [? [=]]].
    use_facts.
    destruct (MigrateSend i (sourceSendArgs s)) as [[err|]|]; cbn; [| | intros [? [=]]].
    + destruct (errors_As_CloseError err); cbn; [closed_by_disconnect|].
      destruct (controlConn (sourceFields s)) as [cc|] eqn:Hcc; cbn;
        [| closed_by_disconnect].
      destruct (writeControl e 0 cc _); cbn; [closed_by_disconnect|].
      rewrite lookup_insert_eq.
      destruct (peerReplyAfter e) as [d|]; [destruct (_ <=? _)|]; cbn;
        closed_by_disconnect.
    + closed_by_disconnect.
  - unfold_go. cbn.
    destruct (instance (src c)) as [i|] eqn:Hi; cbn; [| intros _ [? [=]]].
    destruct (push c) eqn:Hp; cbn.
    + intros [Hc | [[=] _]]. use_facts.
      destruct (MigrateReceive i _) as [[err|]|]; cbn; [| | intros [? [=]]];
        closed_by_disconnect.
    + destruct (dial e 0 _) as [cc|e1] eqn:H0; cbn.
      2: { intros [[cc [=]] | (_ & Hf & Hr)] _. rewrite Hp. cbn.
           unfold heldConns. cbn. rewrite Hf, Hr. cbn. set_solver. }
      intros _.
      destruct (dial e 1 _) as [fc|e2] eqn:H1; cbn; [| closed_by_disconnect].
      destruct (live (src c)) eqn:Hl; cbn.
      * rewrite Hi; cbn.
        destruct (bool_decide (Type_ i = Container)); cbn.
        -- destruct (dial e 2 _) as [rc|e3] eqn:H2; cbn; [| closed_by_disconnect].
           rewrite Hi; cbn.
           destruct (MigrateReceive i _) as [[err|]|]; cbn; [| | intros [? [=]]];
             closed_by_disconnect.
        -- rewrite Hi; cbn.
           destruct (MigrateReceive i _) as [[err|]|]; cbn; [| | intros [? [=]]];
             closed_by_disconnect.
      * rewrite Hi; cbn.
        destruct (MigrateReceive i _) as [[err|]|]; cbn; [| | intros [? [=]]];
          closed_by_disconnect.
Qed.

(** The filesystem connection of the source whose transfer fails. *)
Lemma Do_closes_channels_once_connected_witness :
  2%positive ∈ repClosed (runDo (SourceSession failingSource None) (sampleEnv false (Some 0)) 0).
Proof.
  apply (Do_closes_channels_once_connected (SourceSession failingSource None)
           (sampleEnv false (Some 0)) 0 2%positive).
  - left. reflexivity.
  - eexists. reflexivity.
  - apply list_elem_of_further, list_elem_of_here.
Defined.

(** ** Construction *)

(** A pull-mode request for a live container migration, on a host without
    the checkpoint tool, that supplies no secret: construction fails, but
    with the missing-secret error, not with the unsupported one. *)
Lemma missing_secret_precedes_unsupported :
  wantsLiveContainer (SinkRequest (samplePull ∅ true)) /\
  criuAbsent (sampleEnv true None) /\
  fst (construct (SinkRequest (samplePull ∅ true)) (sampleEnv true None) 0)
    = Some (None, Some (ErrText "Missing control secret")) /\
  fst (construct (SinkRequest (samplePull ∅ true)) (sampleEnv true None) 0)
    <> Some (None, Some (unsupported (SinkRequest (samplePull ∅ true)))).
Proof.
  split; [| split; [| split]].
  - cbn. eexists. split; [reflexivity|]. split; [reflexivity|]. left. reflexivity.
  - unfold criuAbsent. cbn. eauto.
  - reflexivity.
  - discriminate.
Qed.

(** C6 (amended): a request with liveness for a container, on a host where
    the checkpoint tool is absent, and whose secrets were obtained, makes
    the constructor fail with the live-migration-unsupported error of its
    side ([ErrNoLiveMigrationSource] for the source constructor,
    [ErrNoLiveMigrationTarget] for the sink constructor), returning no
    session and having dialled nothing. *)
Theorem construction_without_criu_is_unsupported (r : request) (e : Env) (t0 : Z) :
  wantsLiveContainer r ->
  criuAbsent e ->
  secretsObtained e r ->
  fst (construct r e t0) = Some (None, Some (unsupported r)) /\
  List.filter isDial (snd (construct r e t0)) = [].
Proof.
  intros Hw [x Hx] Hs.
  destruct r as [inst stateful io ai | args]; cbn in Hw, Hs.
  - destruct Hw as (i & -> & -> & Hrun & Hty). destruct Hs as [H0 H1].
    unfold construct. unfold_go. cbn.
    destruct (randomCryptoString e 0) eqn:R0; [clear H0 | discriminate].
    destruct (randomCryptoString e 1) eqn:R1; [clear H1 | discriminate].
    use_facts. rewrite decide_True by reflexivity. use_facts. done.
  - destruct Hw as (i & Hi & Hty & Hlive).
    unfold construct. unfold_go. cbn.
    destruct (ArgPush args) eqn:Hp; cbn.
    + destruct Hlive as [Hl | [[=] _]]. destruct Hs as (H0 & H1 & H2).
      destruct (randomCryptoString e 0) eqn:R0; [clear H0 | discriminate].
      destruct (randomCryptoString e 1) eqn:R1; [clear H1 | discriminate].
      destruct (randomCryptoString e 2) eqn:R2; [clear H2 | discriminate].
      use_facts. rewrite decide_True by reflexivity. use_facts. done.
    + destruct Hs as [[a Ha] [b Hb]]. unfold lookupOk. rewrite Ha, Hb. cbn.
      use_facts. rewrite decide_True by reflexivity. use_facts.
      destruct Hlive as [Hl | [_ [k Hk]]].
      * rewrite Hl, orb_true_r. done.
      * rewrite Hk. done.
Qed.

(** A stateful source request for a running container without the tool. *)
Lemma construction_without_criu_is_unsupported_witness :
  fst (construct (SourceRequest (Some runningContainer) true false false)
         (sampleEnv true None) 0)
    = Some (None, Some ErrNoLiveMigrationSource).
Proof.
  refine (proj1 (construction_without_criu_is_unsupported
                   (SourceRequest (Some runningContainer) true false false)
                   (sampleEnv true None) 0 _ _ _)).
  - exists runningContainer. repeat split; reflexivity.
  - eexists. reflexivity.
  - split; reflexivity.
Defined.

(** C7: in pull mode, a secret mapping without the control secret, or
    without the filesystem secret, makes [newMigrationSink] return an error
    and no session; the live-state secret may be absent; and every session
    the constructor returns has its liveness flag set exactly when the
    live-state secret is present or [Live] was requested. *)
Theorem pull_sink_requires_control_and_fs_secrets
    (args : MigrationSinkArgs) (e : Env) (t0 : Z) :
  ArgPush args = false ->
  let o := newMigrationSink args (start tt e t0) in
  let secrets := ArgSecrets args in
  (secrets !! "control"%string = None ->
   returned o = Some (None, Some (ErrText "Missing control secret"))) /\
  (is_Some (secrets !! "control"%string) -> secrets !! "fs"%string = None ->
   returned o = Some (None, Some (ErrText "Missing fs secret"))) /\
  (forall sink err, returned o = Some (Some sink, err) ->
   err = None /\
   is_Some (secrets !! "control"%string) /\ is_Some (secrets !! "fs"%string) /\
   (live (src sink) = true <->
    is_Some (secrets !! "criu"%string) \/ ArgLive args = true)) /\
  (forall i, ArgInstance args = Some i ->
   is_Some (secrets !! "control"%string) -> is_Some (secrets !! "fs"%string) ->
   secrets !! "criu"%string = None -> ArgLive args = false ->
   exists sink, returned o = Some (Some sink, None) /\ live (src sink) = false).
Proof.
  intros Hp o secrets. subst o secrets.
  split; [| split; [| split]].
  - intros Hc. unfold_go. cbn. rewrite Hp. cbn. unfold lookupOk. rewrite Hc. reflexivity.
  - intros [a Ha] Hf. unfold_go. cbn. rewrite Hp. cbn. unfold lookupOk.
    rewrite Ha, Hf. reflexivity.
  - intros sink err. unfold_go. cbn. rewrite Hp. cbn. unfold lookupOk.
    destruct (ArgSecrets args !! "control"%string) as [a|] eqn:Ha; cbn; [| intros [=]].
    destruct (ArgSecrets args !! "fs"%string) as [b|] eqn:Hb; cbn; [| intros [=]].
    destruct (ArgInstance args) as [i|]; cbn; [| intros [=]].
    assert (Hlive : forall k : option string, forall l : bool,
               (match k with Some _ => true | None => false end) || l = true
               <-> is_Some k \/ l = true).
    { intros [k|] l; cbn; split; eauto.
      intros [[? [=]] | H]; exact H. }
    destruct (decide (Type_ i = Container)); cbn.
    + destruct (ArgSecrets args !! "criu"%string) as [k|] eqn:Hk; cbn;
        destruct (ArgLive args) eqn:Hl; cbn;
        destruct (lookPath e "criu"); cbn; intros [= <- <-]; cbn;
        (split; [reflexivity|]); (split; [eauto|]); (split; [eauto|]);
        split; eauto; try discriminate; intros [[? [=]] | [=]].
    + intros [= <- <-]. cbn. split; [reflexivity|]. split; [eauto|]. split; [eauto|].
      destruct (ArgSecrets args !! "criu"%string) as [k|] eqn:Hk; cbn.
      * split; eauto.
      * destruct (ArgLive args); split; eauto; try discriminate.
        intros [[? [=]] | [=]].
  - intros i Hi [a Ha] [b Hb] Hk Hl. unfold_go. cbn. rewrite Hp. cbn. unfold lookupOk.
    rewrite Ha, Hb, Hk, Hl, Hi. cbn.
    destruct (decide (Type_ i = Container)); cbn; eauto.
Qed.

(** A pull-mode request that supplies no secret. *)
Lemma pull_sink_requires_control_and_fs_secrets_witness :
  returned (newMigrationSink (samplePull ∅ false) (start tt (sampleEnv false None) 0))
    = Some (None, Some (ErrText "Missing control secret")).
Proof.
  exact (proj1 (pull_sink_requires_control_and_fs_secrets (samplePull ∅ false)
                  (sampleEnv false None) 0 eq_refl) eq_refl).
Defined.

(** A stateful source request for a stopped container on a host whose
    entropy source fails: construction fails. *)
Lemma stopped_source_fails_without_entropy :
  IsRunning stoppedContainer = false /\
  fst (construct (SourceRequest (Some stoppedContainer) true false false) noEntropyEnv 0)
    = Some (None, Some (ErrText "entropy source failure")).
Proof. split; reflexivity. Qed.

(** C10 (amended): a stateful source request for an instance that is not
    running never looks for the checkpoint tool and never generates a third
    secret; when the control and filesystem secrets are generated without
    error, construction succeeds, with liveness false and no live-state
    secret, also for a container on a host without the checkpoint tool. *)
Theorem stopped_source_is_not_live
    (i : Instance) (instanceOnly_ allowInconsistent_ : bool) (e : Env) (t0 : Z) :
  IsRunning i = false ->
  let o := newMigrationSource (Some i) true instanceOnly_ allowInconsistent_ (start tt e t0) in
  calls isLookPath o = [] /\
  (length (calls isRandom o) <= 2)%nat /\
  (forall control fs,
     randomCryptoString e 0 = inl control ->
     randomCryptoString e 1 = inl fs ->
     exists s,
       returned o = Some (Some s, None) /\
       live (sourceFields s) = false /\
       criuSecret (sourceFields s) = ""%string /\
       controlSecret (sourceFields s) = control /\
       fsSecret (sourceFields s) = fs /\
       calls isRandom o = [EvRandomCryptoString; EvRandomCryptoString]).
Proof.
  intros Hrun o. subst o.
  split; [| split].
  - unfold_go. cbn.
    destruct (randomCryptoString e 0) eqn:R0; cbn; [| reflexivity].
    destruct (randomCryptoString e 1) eqn:R1; cbn; [| reflexivity].
    rewrite Hrun. reflexivity.
  - unfold_go. cbn.
    destruct (randomCryptoString e 0) eqn:R0; cbn; [| lia].
    destruct (randomCryptoString e 1) eqn:R1; cbn; [| lia].
    rewrite Hrun. cbn. lia.
  - intros control fs R0 R1. unfold_go. use_facts.
    eexists. split; [reflexivity|]. cbn. tauto.
Qed.

(** A stateful source request for a stopped container without the tool. *)
Lemma stopped_source_is_not_live_witness :
  exists s,
    returned (newMigrationSource (Some stoppedContainer) true false false
                (start tt (sampleEnv true None) 0)) = Some (Some s, None) /\
    live (sourceFields s) = false /\
    criuSecret (sourceFields s) = ""%string.
Proof.
  destruct (proj2 (proj2 (stopped_source_is_not_live stoppedContainer false false
                            (sampleEnv true None) 0 eq_refl)) _ _ eq_refl eq_refl)
    as (s & Hret & Hlive & Hcriu & _).
  exists s. split; [exact Hret|]. split; [exact Hlive | exact Hcriu].
Defined.

(** ** The OVN southbound lookup: properties *)

(** X1: the lookup returns a hostname only without an error.  With an
    error the hostname is empty; without one, the port binding of
    [cr-<port>] was found, it names a chassis, that chassis was found, and
    the hostname returned is the one of that chassis row. *)
Theorem chassis_hostname_or_error (o : SB) (ovnRouterPort : OVNRouterPort) :
  let r := fst (GetLogicalRouterPortActiveChassisHostname o ovnRouterPort) in
  (snd r <> None -> fst r = ""%string) /\
  (snd r = None <->
   exists pb uuid chassis,
     GetPortBinding (client o) (boundTo ovnRouterPort None) = inl pb /\
     Chassis pb = Some uuid /\
     GetChassis (client o) (mkChassis uuid "") = inl chassis /\
     fst r = Hostname chassis).
Proof.
  unfold GetLogicalRouterPortActiveChassisHostname, boundTo. cbn zeta.
  destruct (GetPortBinding _ _) as [pb|e1] eqn:H1; cbn.
  2: { split; [reflexivity|]. split; [intros [=] | intros (? & ? & ? & [=] & _)]. }
  destruct (Chassis pb) as [uuid|] eqn:Hc; cbn.
  2: { split; [reflexivity|]. split; [intros [=]|].
       intros (pb' & ? & ? & [= <-] & Hc' & _). congruence. }
  destruct (GetChassis _ _) as [ch|e2] eqn:H2; cbn.
  - split; [intros []; reflexivity|]. split; [intros _ | reflexivity].
    exists pb, uuid, ch. auto.
  - split; [reflexivity|]. split; [intros [=]|].
    intros (pb' & u' & ch' & [= <-] & Hc' & H2' & _). congruence.
Qed.

(** An empty database: the port is not found, and no hostname comes with
    the error. *)
Lemma chassis_hostname_or_error_witness :
  fst (fst (GetLogicalRouterPortActiveChassisHostname (mkSB (tableClient ∅ ∅)) "lr0-ext"))
  = ""%string.
Proof.
  refine (proj1 (chassis_hostname_or_error (mkSB (tableClient ∅ ∅)) "lr0-ext") _).
  discriminate.
Defined.


(** Over the tables, the lookup is the composition of the two table
    lookups, with one error per way of failing. *)
Lemma lookup_from_tables
    (bindings : gmap string ovnSB_PortBinding) (chassis : gmap string ovnSB_Chassis)
    (ovnRouterPort : OVNRouterPort) :
  fst (GetLogicalRouterPortActiveChassisHostname (mkSB (tableClient bindings chassis))
         ovnRouterPort)
  = match bindings !! ("cr-" +:+ ovnRouterPort) with
    | None => (""%string, Some ErrNotFound)
    | Some pb =>
        match Chassis pb with
        | None => (""%string, Some (ErrText "No chassis found"))
        | Some uuid =>
            match chassis !! uuid with
            | None => (""%string, Some ErrNotFound)
            | Some row => (Hostname row, None)
            end
        end
    end.
Proof.
  unfold GetLogicalRouterPortActiveChassisHostname. cbn.
  destruct (bindings !! _) as [pb|]; [| reflexivity].
  destruct (Chassis pb) as [uuid|]; [| reflexivity]. cbn.
  destruct (chassis !! uuid); reflexivity.
Qed.

(** X3: once a router port is bound to a chassis and that chassis is
    registered with a hostname, the lookup returns that hostname and no
    error, whatever else the tables hold; it reports "No chassis found"
    when the port is bound to no chassis, and not-found when the port is
    unbound or when the chassis it is bound to is removed. *)
Theorem chassis_hostname_after_binding
    (bindings : gmap string ovnSB_PortBinding) (chassis : gmap string ovnSB_Chassis)
    (ovnRouterPort : OVNRouterPort) (uuid hostname : string) :
  let key := ("cr-" +:+ ovnRouterPort)%string in
  let lookup b c :=
    fst (GetLogicalRouterPortActiveChassisHostname (mkSB (tableClient b c)) ovnRouterPort) in
  lookup (<[ key := boundTo ovnRouterPort (Some uuid) ]> bindings)
         (<[ uuid := mkChassis uuid hostname ]> chassis) = (hostname, None) /\
  lookup (<[ key := boundTo ovnRouterPort None ]> bindings) chassis
    = (""%string, Some (ErrText "No chassis found")) /\
  lookup (delete key bindings) chassis = (""%string, Some ErrNotFound) /\
  lookup (<[ key := boundTo ovnRouterPort (Some uuid) ]> bindings) (delete uuid chassis)
    = (""%string, Some ErrNotFound).
Proof.
  intros key lookup. subst key lookup. cbn beta. rewrite !lookup_from_tables.
  rewrite !lookup_insert_eq, !lookup_delete_eq. cbn.
  rewrite lookup_insert_eq, lookup_delete_eq. auto.
Qed.

(** The gateway port names of two router ports differ when the router
    ports do. *)
Lemma gateway_port_name_inj (p q : OVNRouterPort) :
  ("cr-" +:+ p)%string = ("cr-" +:+ q)%string -> p = q.
Proof. cbn. intros [= H]. exact H. Qed.

(** X4: binding another router port, or unbinding it, does not change what
    the lookup returns for this one. *)
Theorem chassis_hostname_frame
    (bindings : gmap string ovnSB_PortBinding) (chassis : gmap string ovnSB_Chassis)
    (ovnRouterPort other : OVNRouterPort) (row : ovnSB_PortBinding) :
  other <> ovnRouterPort ->
  let before :=
    fst (GetLogicalRouterPortActiveChassisHostname (mkSB (tableClient bindings chassis))
           ovnRouterPort) in
  fst (GetLogicalRouterPortActiveChassisHostname
         (mkSB (tableClient (<[ ("cr-" +:+ other)%string := row ]> bindings) chassis))
         ovnRouterPort) = before /\
  fst (GetLogicalRouterPortActiveChassisHostname
         (mkSB (tableClient (delete ("cr-" +:+ other)%string bindings) chassis))
         ovnRouterPort) = before.
Proof.
  intros Hne before. subst before.
  assert (Hk : ("cr-" +:+ other)%string <> ("cr-" +:+ ovnRouterPort)%string).
  { intros H. apply Hne. exact (gateway_port_name_inj _ _ H). }
  rewrite !lookup_from_tables.
  rewrite lookup_insert_ne by exact Hk. rewrite lookup_delete_ne by exact Hk.
  split; reflexivity.
Qed.

(** Two router ports of one router. *)
Lemma chassis_hostname_frame_witness :
  fst (GetLogicalRouterPortActiveChassisHostname
         (mkSB (tableClient (<[ "cr-lr0-int"%string := boundTo "lr0-int" None ]> ∅) ∅))
         "lr0-ext")
  = fst (GetLogicalRouterPortActiveChassisHostname (mkSB (tableClient ∅ ∅)) "lr0-ext").
Proof.
  refine (proj1 (chassis_hostname_frame ∅ ∅ "lr0-ext" "lr0-int" (boundTo "lr0-int" None) _)).
  discriminate.
Defined.

(** ** Every path of [Do] *)

Lemma disconnect_closed {T} (f : migrationFields) (st : Sys T) (conn : WsConn) :
  conn ∈ closed (disconnect f st) -> conn ∈ heldConns f \/ conn ∈ closed st.
Proof.
  unfold heldConns, disconnect, closeIfSet.
  destruct (controlConn f), (fsConn f), (criuConn f); cbn;
    rewrite ?elem_of_cons, ?elem_of_nil, ?elem_of_union, ?elem_of_singleton; tauto.
Qed.

Lemma disconnect_trace {T} (f : migrationFields) (st : Sys T) :
  events (trace (disconnect f st))
  = events (trace st) ++ map EvClose (heldConns f).
Proof.
  unfold heldConns, disconnect, closeIfSet, events.
  destruct (controlConn f), (fsConn f), (criuConn f); cbn;
    rewrite ?map_app, <- ?app_assoc; cbn; rewrite ?app_nil_r; reflexivity.
Qed.

Lemma events_app (tr tr' : list (Z * Event)) :
  events (tr ++ tr') = events tr ++ events tr'.
Proof. apply map_app. Qed.

(** Closes are invisible to a filter that rejects them. *)
Lemma filter_closes (kind : Event -> bool) (held : list WsConn) (rest : list Event) :
  (forall c, kind (EvClose c) = false) ->
  List.filter kind (map EvClose held ++ rest) = List.filter kind rest.
Proof.
  intros Hk. induction held as [| c held IH]; cbn; [reflexivity|].
  rewrite Hk. exact IH.
Qed.

Lemma filter_only_closes (kind : Event -> bool) (held : list WsConn) :
  (forall c, kind (EvClose c) = false) ->
  List.filter kind (map EvClose held) = [].
Proof.
  intros Hk. rewrite <- (app_nil_r (map EvClose held)).
  rewrite filter_closes by exact Hk. reflexivity.
Qed.

Lemma quiet_closes (held : list WsConn) (rest : list Event) :
  forallb (fun ev => isClose ev || isLog ev) rest = true ->
  quietAfterClose (map EvClose held ++ rest) = true.
Proof.
  intros Hrest. destruct held as [| c held]; cbn.
  - induction rest as [| ev rest IH]; cbn in *; [reflexivity|].
    apply andb_true_iff in Hrest as [Hev Hrest].
    destruct (isClose ev); [exact Hrest | exact (IH Hrest)].
  - rewrite forallb_app, Hrest, andb_true_r.
    induction held as [| c' held IH]; cbn; [reflexivity | exact IH].
Qed.

#[local] Arguments wellBehaved : simpl never.
#[local] Arguments behavesWell : simpl never.
#[local] Arguments disconnect : simpl never.

(** Split on the innermost stuck [match] of the goal. *)
Ltac split_innermost :=
  match goal with
  | |- context [match ?x with _ => _ end] =>
      lazymatch x with
      | context [match _ with _ => _ end] => fail
      | context [@disconnect] => fail
      | _ => destruct x eqn:?
      end
  end.

(** Walk every path of a run: simplify, use the equations collected so
    far, look up the deadline just set, and split on whatever the next
    step depends on. *)
Ltac walk :=
  unfold_go;
  unfold deref, driverCall, SetReadDeadline, ReadMessage, connectWithSecret, writeMessage,
    logInfo, logError, emit, defer, LookPath, RandomCryptoString, panic, ret in *;
  repeat (use_facts;
          first [ rewrite lookup_insert_eq | rewrite disconnect_self | split_innermost ]);
  use_facts.

(** The events of the end of a path: those before the cleanup, the closes
    of [disconnect], and the last log line. *)
Ltac tidy_events :=
  rewrite ?events_app, ?disconnect_trace, <- ?app_assoc;
  unfold events; cbn -[behavesWell];
  rewrite ?filter_closes by (intros; reflexivity);
  rewrite ?filter_only_closes by (intros; reflexivity); cbn -[behavesWell].

(** The end of a path: the parts of [wellBehaved]. *)
Ltac behaved :=
  unfold wellBehaved; cbn -[events behavesWell]; rewrite ?disconnect_self;
  cbn -[events behavesWell]; use_facts;
  unfold behavesWell;
  (split;
   [ let Hin := fresh "Hin" in
     intros ? Hin;
     first
       [ apply disconnect_closed in Hin as [Hin | Hin];
         [ exact Hin | exfalso; exact (not_elem_of_empty _ Hin) ]
       | exfalso; exact (not_elem_of_empty _ Hin) ]
   | tidy_events;
     repeat split; try discriminate; try reflexivity; try lia; try tauto;
     try (intros ? [= <-]; reflexivity);
     try (apply quiet_closes; reflexivity);
     try (rewrite <- (app_nil_r (map EvClose _)); apply quiet_closes; reflexivity) ]).

Lemma sourceDo_wellBehaved (s : migrationSourceWs) (e : Env) (t0 : Z)
    (migrateOp : option Operation) :
  wellBehaved (instance (sourceFields s)) sourceFields (sourceDo migrateOp (start s e t0)).
Proof. walk; behaved. Qed.

Lemma sinkDo_wellBehaved (c : migrationSink) (e : Env) (t0 : Z)
    (instOp : option InstanceOperation) :
  wellBehaved (instance (src c)) sinkFields (sinkDo instOp (start c e t0)).
Proof. walk; behaved. Qed.

(** X5: [Do] closes no connection but those held in the channel state the
    session uses. *)
Theorem Do_closes_only_held_channels (x : session) (e : Env) (t0 : Z) (conn : WsConn) :
  conn ∈ repClosed (runDo x e t0) -> conn ∈ heldConns (repFields (runDo x e t0)).
Proof.
  destruct x as [s migrateOp | c instOp].
  - exact (proj1 (sourceDo_wellBehaved s e t0 migrateOp) conn).
  - exact (proj1 (sinkDo_wellBehaved c e t0 instOp) conn).
Qed.

(** The source whose transfer fails closes its control connection. *)
Lemma Do_closes_only_held_channels_witness :
  1%positive ∈ heldConns
    (repFields (runDo (SourceSession failingSource None) (sampleEnv false (Some 0)) 0)).
Proof.
  apply (Do_closes_only_held_channels (SourceSession failingSource None)
           (sampleEnv false (Some 0)) 0 1%positive).
  replace (repClosed (runDo (SourceSession failingSource None) (sampleEnv false (Some 0)) 0))
    with ({[2%positive]} ∪ ({[1%positive]} ∪ (∅ : gset WsConn))) by reflexivity.
  rewrite !elem_of_union, !elem_of_singleton. tauto.
Defined.

(** X6: in every run of [Do], once a connection has been closed nothing
    follows but further closes and log lines: no connection is written,
    read or dialled, and the driver is not called, after the cleanup has
    begun. *)
Theorem Do_uses_no_channel_after_close (x : session) (e : Env) (t0 : Z) :
  quietAfterClose (repEvents (runDo x e t0)) = true.
Proof.
  destruct x as [s migrateOp | c instOp].
  - exact (proj1 (proj2 (sourceDo_wellBehaved s e t0 migrateOp))).
  - exact (proj1 (proj2 (sinkDo_wellBehaved c e t0 instOp))).
Qed.

(** X7: every run of [Do] calls the instance driver at most once, and a
    run that returns nil has called it exactly once. *)
Theorem Do_transfers_at_most_once (x : session) (e : Env) (t0 : Z) :
  (length (List.filter isDriverCall (repEvents (runDo x e t0))) <= 1)%nat /\
  (endOf x e t0 = Ends None ->
   length (List.filter isDriverCall (repEvents (runDo x e t0))) = 1%nat).
Proof.
  destruct x as [s migrateOp | c instOp].
  - destruct (sourceDo_wellBehaved s e t0 migrateOp) as (_ & _ & H1 & H2 & _).
    split; [exact H1 | exact H2].
  - destruct (sinkDo_wellBehaved c e t0 instOp) as (_ & _ & H1 & H2 & _).
    split; [exact H1 | exact H2].
Qed.

(** The connected source whose driver returns nil. *)
Lemma Do_transfers_at_most_once_witness :
  length (List.filter isDriverCall
            (repEvents (runDo (SourceSession connectedSource None) (sampleEnv false (Some 0)) 0)))
    = 1%nat.
Proof.
  exact (proj2 (Do_transfers_at_most_once (SourceSession connectedSource None)
                  (sampleEnv false (Some 0)) 0) eq_refl).
Defined.



(** X9: a run of [Do] that never returns is stuck in the instance driver
    (the last thing it did was to call it), and a run that panics was
    given a session without an instance. *)
Theorem Do_hangs_only_in_driver (x : session) (e : Env) (t0 : Z) :
  (endOf x e t0 = Hangs -> endsInDriver (repEvents (runDo x e t0)) = true) /\
  (endOf x e t0 = Panics -> sessionInstance x = None).
Proof.
  destruct x as [s migrateOp | c instOp].
  - destruct (sourceDo_wellBehaved s e t0 migrateOp) as (_ & _ & _ & _ & _ & _ & H1 & H2 & _).
    split; [exact H1 | exact H2].
  - destruct (sinkDo_wellBehaved c e t0 instOp) as (_ & _ & _ & _ & _ & _ & H1 & H2 & _).
    split; [exact H1 | exact H2].
Qed.

(** A source whose driver never returns, and a source without instance. *)
Lemma Do_hangs_only_in_driver_witness :
  endsInDriver
    (repEvents (runDo (SourceSession stuckSource None) (sampleEnv false (Some 0)) 0)) = true /\
  sessionInstance (SourceSession orphanSource None) = None.
Proof.
  split.
  - exact (proj1 (Do_hangs_only_in_driver (SourceSession stuckSource None)
                    (sampleEnv false (Some 0)) 0) eq_refl).
  - exact (proj2 (Do_hangs_only_in_driver (SourceSession orphanSource None)
                    (sampleEnv false (Some 0)) 0) eq_refl).
Defined.

(** X10: every error [Do] returns is either the timeout error or a cause
    wrapped with one of the five contexts of [Do]; an error of a
    collaborator is never returned bare. *)
Theorem Do_returns_only_its_own_errors (x : session) (e : Env) (t0 : Z) (err : error) :
  endOf x e t0 = Ends (Some err) -> madeByDo err = true.
Proof.
  destruct x as [s migrateOp | c instOp].
  - exact (proj2 (proj2 (proj2 (proj2 (proj2 (proj2 (proj2 (proj2
             (sourceDo_wellBehaved s e t0 migrateOp)))))))) err).
  - exact (proj2 (proj2 (proj2 (proj2 (proj2 (proj2 (proj2 (proj2
             (sinkDo_wellBehaved c e t0 instOp)))))))) err).
Qed.

(** The pull-mode sink whose filesystem dial is refused. *)
Lemma Do_returns_only_its_own_errors_witness :
  madeByDo (ErrWrap "Failed connecting filesystem sink socket"
              (ErrText "websocket: bad handshake")) = true.
Proof.
  exact (Do_returns_only_its_own_errors (SinkSession pullSink None) (refusedDialEnv 1) 0 _
           eq_refl).
Defined.

#[local] Arguments followsDriver : simpl never.

Lemma in_events_closes (ev : Event) (held : list WsConn) :
  In ev (map EvClose held) -> isClose ev = true.
Proof. rewrite in_map_iff. intros (c & <- & _). reflexivity. Qed.

(** The end of a path: each event of the trace is the driver call the
    path split on, or no driver call at all. *)
Ltac follows :=
  unfold followsDriver; cbn -[events];
  let ev := fresh "ev" in
  let Hin := fresh "Hin" in
  let Hans := fresh "Hans" in
  intros ev ? Hin Hans; revert Hin;
  rewrite ?events_app, ?disconnect_trace; unfold events; cbn;
  rewrite ?in_app_iff; cbn;
  intros Hin;
  repeat match goal with
         | H : _ \/ _ |- _ => destruct H as [H | H]
         | H : False |- _ => destruct H
         | H : In _ (map EvClose _) |- _ =>
             apply in_events_closes in H;
             destruct ev; try discriminate H; discriminate Hans
         end;
  subst; cbn in Hans; try discriminate Hans;
  injection Hans as <-; use_facts; reflexivity.

Lemma sourceDo_followsDriver (s : migrationSourceWs) (e : Env) (t0 : Z)
    (migrateOp : option Operation) (i : Instance) :
  instance (sourceFields s) = Some i ->
  followsDriver (SourceSession s migrateOp) i (sourceDo migrateOp (start s e t0)).
Proof. intros Hi. walk; follows. Qed.

Lemma sinkDo_followsDriver (c : migrationSink) (e : Env) (t0 : Z)
    (instOp : option InstanceOperation) (i : Instance) :
  instance (src c) = Some i ->
  followsDriver (SinkSession c instOp) i (sinkDo instOp (start c e t0)).
Proof. intros Hi. walk; follows. Qed.

(** X11: once [Do] has called the instance driver it ends as the driver
    answers: it returns nil when the driver returns nil, it returns the
    driver's error wrapped with the context of its side when the driver
    returns one (whatever then happens on the control channel), and it
    never returns when the driver does not. *)
Theorem Do_ends_as_the_driver_answers
    (x : session) (e : Env) (t0 : Z) (i : Instance) (ev : Event) (answer : callResult) :
  sessionInstance x = Some i ->
  In ev (repEvents (runDo x e t0)) ->
  driverAnswer i ev = Some answer ->
  endOf x e t0 = afterDriver x answer.
Proof.
  destruct x as [s migrateOp | c instOp]; intros Hi Hin Hans.
  - exact (sourceDo_followsDriver s e t0 migrateOp i Hi ev answer Hin Hans).
  - exact (sinkDo_followsDriver c e t0 instOp i Hi ev answer Hin Hans).
Qed.

(** The source whose transfer fails with a full disk. *)
Lemma Do_ends_as_the_driver_answers_witness :
  endOf (SourceSession failingSource None) (sampleEnv false (Some 0)) 0
    = Ends (Some (ErrWrap "Failed migration on source" fullDisk)).
Proof.
  refine (Do_ends_as_the_driver_answers (SourceSession failingSource None)
            (sampleEnv false (Some 0)) 0 failingContainer
            (EvMigrateSend (sourceSendArgs failingSource)) (Returns (Some fullDisk))
            eq_refl _ eq_refl).
  vm_compute. tauto.
Defined.

#[local] Arguments handshake : simpl never.

(** X12: after a failed transfer the source [Do] writes its failure notice
    exactly when the error is no close error and there is a control
    connection, and reads the control channel, once, exactly when that
    write was accepted; otherwise it neither writes nor reads. *)
Theorem source_Do_handshake
    (s : migrationSourceWs) (e : Env) (t0 : Z) (migrateOp : option Operation)
    (i : Instance) (err : error) :
  instance (sourceFields s) = Some i ->
  connectsInTime e (sourceAllConnected s) t0 ->
  MigrateSend i (sourceSendArgs s) = Returns (Some err) ->
  handshake (noticeAccepted e s err) (negb (errors_As_CloseError err))
    (controlConn (sourceFields s)) (failureNotice err)
    (sourceDo migrateOp (start s e t0)).
Proof.
  intros Hi Hc Hm. unfold noticeAccepted.
  walk.
  all: unfold handshake; cbn -[events];
    rewrite ?events_app, ?disconnect_trace; unfold events; cbn;
    rewrite ?filter_closes by (intros; reflexivity); cbn; use_facts.
  all: split; reflexivity.
Qed.

(** The source whose transfer fails with a full disk, and whose peer takes
    the notice. *)
Lemma source_Do_handshake_witness :
  handshake true true (Some 1%positive) (failureNotice fullDisk)
    (sourceDo None (start failingSource (sampleEnv false (Some 0)) 0)).
Proof.
  exact (source_Do_handshake failingSource (sampleEnv false (Some 0)) 0 None
           failingContainer fullDisk eq_refl eq_refl eq_refl).
Defined.

(** ** Construction: every path *)

#[local] Arguments buildsOnly : simpl never.

Ltac as_built :=
  unfold buildsOnly; cbn;
  intros ? ? [= <- <-];
  first
    [ left; split; [reflexivity | discriminate]
    | right; split; [| reflexivity];
      unfold sourceBuilt, sinkBuilt, secret, runningOpt, containerOpt, hasKey, lookupOk in *;
      repeat match goal with
             | |- context [?m !! ?k] => destruct (m !! k) eqn:?
             end;
      cbn in *; try discriminate;
      use_facts;
      rewrite ?bool_decide_eq_false_2 by assumption;
      rewrite ?bool_decide_eq_true_2 by assumption;
      rewrite ?orb_true_r, ?andb_false_r; reflexivity ].

Lemma newMigrationSource_buildsOnly (inst : option Instance)
    (stateful instanceOnly_ allowInconsistent_ : bool) (e : Env) (t0 : Z) :
  buildsOnly (sourceBuilt inst stateful instanceOnly_ allowInconsistent_ e)
    (newMigrationSource inst stateful instanceOnly_ allowInconsistent_ (start tt e t0)).
Proof.
  walk; as_built.
Qed.

Lemma newMigrationSink_buildsOnly (args : MigrationSinkArgs) (e : Env) (t0 : Z) :
  buildsOnly (sinkBuilt args e) (newMigrationSink args (start tt e t0)).
Proof.
  walk; as_built.
Qed.


Lemma pull_sink_secrets_supplied (args : MigrationSinkArgs) (e : Env) (t0 : Z)
    (c : migrationSink) (err : option error) :
  ArgPush args = false ->
  returned (newMigrationSink args (start tt e t0)) = Some (Some c, err) ->
  is_Some (ArgSecrets args !! "control"%string) /\
  is_Some (ArgSecrets args !! "fs"%string).
Proof.
  intros Hp. unfold newMigrationSink, call, bind, ret, lookupOk. cbn.
  rewrite Hp. cbn.
  destruct (ArgSecrets args !! "control"%string); cbn; [| intros [=]].
  destruct (ArgSecrets args !! "fs"%string); cbn; [| intros [=]].
  eauto.
Qed.

(** X13: a constructor returns either a session and no error, or an error
    and no session, never both and never neither. *)
Theorem constructors_return_session_xor_error
    (r : request) (e : Env) (t0 : Z) (b : option built) (err : option error) :
  fst (construct r e t0) = Some (b, err) ->
  (b = None <-> err <> None).
Proof.
  destruct r as [inst stateful only allow | args]; unfold construct; cbn [fst].
  - pose proof (newMigrationSource_buildsOnly inst stateful only allow e t0) as H.
    unfold buildsOnly in H.
    destruct (returned _) as [[s err'] |]; [| discriminate].
    intros [= <- <-].
    destruct (H s err' eq_refl) as [[-> Hne] | [-> ->]]; cbn; split; congruence.
  - pose proof (newMigrationSink_buildsOnly args e t0) as H.
    unfold buildsOnly in H.
    destruct (returned _) as [[c err'] |]; [| discriminate].
    intros [= <- <-].
    destruct (H c err' eq_refl) as [[-> Hne] | [-> ->]]; cbn; split; congruence.
Qed.

(** A stateful source request for a running container without [criu]. *)
Lemma constructors_return_session_xor_error_witness :
  (None : option built) = None <-> Some ErrNoLiveMigrationSource <> None.
Proof.
  exact (constructors_return_session_xor_error
           (SourceRequest (Some runningContainer) true false false)
           (sampleEnv true None) 0 None (Some ErrNoLiveMigrationSource) eq_refl).
Defined.

(** X14: the session [newMigrationSource] returns has no error with it,
    carries the instance and the two flags it was given, holds no
    connection yet, has its all-connected channel made, has the first two
    generated secrets as control and filesystem secrets, is live exactly
    when [stateful] was asked for a running instance, and has a live-state
    secret only when it is live and the instance is a container. *)
Theorem newMigrationSource_result
    (inst : option Instance) (stateful instanceOnly_ allowInconsistent_ : bool)
    (e : Env) (t0 : Z) (s : migrationSourceWs) (err : option error) :
  returned (newMigrationSource inst stateful instanceOnly_ allowInconsistent_ (start tt e t0))
    = Some (Some s, err) ->
  let f := sourceFields s in
  err = None /\
  instance f = inst /\ instanceOnly f = instanceOnly_ /\
  allowInconsistent f = allowInconsistent_ /\
  heldConns f = [] /\ sourceAllConnected s = ChanMade /\
  controlSecret f = secret e 0 /\ fsSecret f = secret e 1 /\
  live f = stateful && runningOpt inst /\
  (criuSecret f <> ""%string -> live f = true /\ containerOpt inst = true).
Proof.
  intros Hret f. subst f.
  destruct (newMigrationSource_buildsOnly inst stateful instanceOnly_ allowInconsistent_
              e t0 _ _ Hret) as [[[=] _] | [[= ->] ->]].
  unfold sourceBuilt. cbn.
  repeat split; try reflexivity.
  - destruct (stateful && runningOpt inst); [reflexivity | cbn in *; congruence].
  - destruct (stateful && runningOpt inst), (containerOpt inst); cbn in *; congruence.
Qed.

(** A stateful source request for a running virtual machine: live, and
    without live-state secret. *)
Lemma newMigrationSource_result_witness :
  live (sourceFields
          (sourceBuilt (Some (sampleInstance VM true (Returns None))) true false false
             (sampleEnv true None)))
  = true.
Proof.
  exact (proj1 (proj2 (proj2 (proj2 (proj2 (proj2 (proj2 (proj2 (proj2
           (newMigrationSource_result (Some (sampleInstance VM true (Returns None)))
              true false false (sampleEnv true None) 0 _ None eq_refl)))))))))).
Defined.

(** X15: the session [newMigrationSink] returns has no error with it and
    holds no connection; only one of its two channel states is filled in:
    in push mode [dest] has the generated secrets and the requested
    liveness while [src] has no secret and is not live, and the
    all-connected channel is made; in pull mode [src] has the supplied
    secrets while [dest] has none, and there is no all-connected channel.
    The instance is kept in [src] only. *)
Theorem newMigrationSink_result
    (args : MigrationSinkArgs) (e : Env) (t0 : Z) (c : migrationSink) (err : option error) :
  returned (newMigrationSink args (start tt e t0)) = Some (Some c, err) ->
  let blank f :=
    controlSecret f = ""%string /\ fsSecret f = ""%string /\ criuSecret f = ""%string /\
    live f = false in
  err = None /\
  push c = ArgPush args /\ refresh c = ArgRefresh args /\
  instance (src c) = ArgInstance args /\ instance (dest c) = None /\
  instanceOnly (src c) = ArgInstanceOnly args /\
  instanceOnly (dest c) = ArgInstanceOnly args /\
  heldConns (src c) = [] /\ heldConns (dest c) = [] /\
  (if ArgPush args then
     blank (src c) /\ sinkAllConnected c = ChanMade /\
     controlSecret (dest c) = secret e 0 /\ fsSecret (dest c) = secret e 1 /\
     live (dest c) = ArgLive args
   else
     blank (dest c) /\ sinkAllConnected c = ChanNil /\
     ArgSecrets args !! "control"%string = Some (controlSecret (src c)) /\
     ArgSecrets args !! "fs"%string = Some (fsSecret (src c)) /\
     live (src c) = hasKey (ArgSecrets args) "criu" || ArgLive args).
Proof.
  intros Hret blank. subst blank.
  destruct (newMigrationSink_buildsOnly args e t0 _ _ Hret) as [[[=] _] | [[= ->] ->]].
  pose proof (fun Hp => pull_sink_secrets_supplied args e t0 _ _ Hp Hret) as Hsecrets.
  unfold sinkBuilt.
  destruct (ArgPush args); cbn; [repeat split; reflexivity|].
  destruct (Hsecrets eq_refl) as [[a Ha] [b' Hb]].
  rewrite Ha, Hb. cbn. repeat split; reflexivity.
Qed.

(** A pull-mode request with the secrets of the remote. *)
Lemma newMigrationSink_result_witness :
  instance (dest (sinkBuilt (samplePull suppliedSecrets false) (sampleEnv false None))) = None.
Proof.
  exact (proj1 (proj2 (proj2 (proj2 (proj2
           (newMigrationSink_result (samplePull suppliedSecrets false)
              (sampleEnv false None) 0 _ None eq_refl)))))).
Defined.

(** X16: in push mode [newMigrationSink] ignores the secret mapping it is
    given, and in pull mode it generates no secret. *)
Theorem newMigrationSink_secrets_from_one_place
    (args : MigrationSinkArgs) (m : gmap string string) (e : Env) (t0 : Z) :
  (ArgPush args = true ->
   newMigrationSink (withSecrets m args) (start tt e t0)
   = newMigrationSink args (start tt e t0)) /\
  (ArgPush args = false ->
   calls isRandom (newMigrationSink args (start tt e t0)) = []).
Proof.
  split; intros Hp.
  - unfold newMigrationSink, withSecrets. cbn. rewrite Hp. reflexivity.
  - revert Hp. walk; intros; try discriminate; reflexivity.
Qed.

(** A pull-mode request generates no secret. *)
Lemma newMigrationSink_secrets_from_one_place_witness :
  calls isRandom
    (newMigrationSink (samplePull suppliedSecrets false) (start tt (sampleEnv false None) 0))
  = [].
Proof.
  exact (proj2 (newMigrationSink_secrets_from_one_place (samplePull suppliedSecrets false)
                  ∅ (sampleEnv false None) 0) eq_refl).
Defined.

#[local] Arguments looksUpOnlyIf : simpl never.
#[local] Arguments unsupportedOnlyIfWanted : simpl never.

Ltac looked_up :=
  unfold looksUpOnlyIf, needsCriu, runningOpt, containerOpt; cbn;
  let H := fresh "H" in
  intros ? H;
  repeat match goal with
         | H : _ \/ _ |- _ => destruct H as [H | H]
         | H : False |- _ => destruct H
         | H : (_, _) = (_, _) |- _ => injection H as _ H
         end;
  try discriminate;
  match goal with H : EvLookPath _ = EvLookPath _ |- _ => injection H as <- end;
  use_facts; rewrite ?bool_decide_eq_true_2 by assumption; split; reflexivity.

Lemma newMigrationSource_looksUp (inst : option Instance)
    (stateful instanceOnly_ allowInconsistent_ : bool) (e : Env) (t0 : Z) :
  looksUpOnlyIf (needsCriu (SourceRequest inst stateful instanceOnly_ allowInconsistent_))
    (newMigrationSource inst stateful instanceOnly_ allowInconsistent_ (start tt e t0)).
Proof. walk; looked_up. Qed.

Lemma newMigrationSink_looksUp (args : MigrationSinkArgs) (e : Env) (t0 : Z) :
  looksUpOnlyIf (needsCriu (SinkRequest args)) (newMigrationSink args (start tt e t0)).
Proof. walk; looked_up. Qed.

(** X17: the only executable a constructor looks up is [criu], and it does
    so only for a container: the source constructor only when [stateful]
    was asked for a running container, the sink constructor for every
    container. *)
Theorem criu_looked_up_only_for_containers
    (r : request) (e : Env) (t0 : Z) (file : string) :
  In (EvLookPath file) (snd (construct r e t0)) ->
  file = "criu"%string /\ needsCriu r = true.
Proof.
  destruct r as [inst stateful only allow | args]; unfold construct; cbn [snd].
  - exact (newMigrationSource_looksUp inst stateful only allow e t0 file).
  - exact (newMigrationSink_looksUp args e t0 file).
Qed.

(** A non-live pull-mode request for a container. *)
Lemma criu_looked_up_only_for_containers_witness :
  needsCriu (SinkRequest (samplePull suppliedSecrets false)) = true.
Proof.
  refine (proj2 (criu_looked_up_only_for_containers
                   (SinkRequest (samplePull suppliedSecrets false))
                   (sampleEnv false None) 0 "criu" _)).
  vm_compute. tauto.
Defined.

(** The leaves of a constructor that do not return the unsupported error:
    a panic, a session, another error, or an error of the entropy source
    (which is not the unsupported error by assumption). *)
Ltac not_unsupported :=
  unfold unsupportedOnlyIfWanted; cbn;
  let H := fresh "H" in
  intros ? H;
  first
    [ discriminate H
    | injection H as _ H;
      first
        [ discriminate H
        | exfalso;
          match goal with
          | Hr : forall n, errOf _ <> Some _,
            Heq : errOf (randomCryptoString _ ?n) = Some _ |- _ =>
              apply (Hr n); rewrite Heq, H; reflexivity
          end ] ].

Lemma newMigrationSource_unsupported (inst : option Instance)
    (stateful instanceOnly_ allowInconsistent_ : bool) (e : Env) (t0 : Z) :
  let r := SourceRequest inst stateful instanceOnly_ allowInconsistent_ in
  (forall n, errOf (randomCryptoString e n) <> Some (unsupported r)) ->
  unsupportedOnlyIfWanted r e
    (newMigrationSource inst stateful instanceOnly_ allowInconsistent_ (start tt e t0)).
Proof.
  intros r Hr. subst r. cbn in Hr. walk; try solve [not_unsupported].
  unfold unsupportedOnlyIfWanted, wantsLiveContainer, criuAbsent. intros _ _.
  rewrite Heqo2. split; [exists i | ]; eauto.
Qed.

Lemma newMigrationSink_unsupported (args : MigrationSinkArgs) (e : Env) (t0 : Z) :
  (forall n, errOf (randomCryptoString e n) <> Some (unsupported (SinkRequest args))) ->
  unsupportedOnlyIfWanted (SinkRequest args) e (newMigrationSink args (start tt e t0)).
Proof.
  intros Hr. cbn in Hr. walk; try solve [not_unsupported].
  all: unfold unsupportedOnlyIfWanted, wantsLiveContainer, criuAbsent; intros _ _.
  all: repeat match goal with
              | H : _ && _ = true |- _ => apply andb_true_iff in H as [? ?]
              end.
  all: split; [| destruct (lookPath e "criu"); [eauto | discriminate]].
  - exists i. auto.
  - exists i. split; [assumption|]. split; [assumption|].
    destruct (ArgLive args); [left; reflexivity|].
    right. split; [assumption|].
    unfold lookupOk in *. destruct (ArgSecrets args !! "criu"%string); [eauto|].
    discriminate.
Qed.

(** X18: a constructor returns the live-migration-unsupported error of its
    side only to a request that wants liveness on a container, on a host
    where [criu] is absent (the entropy source having no such error of
    its own). *)
Theorem unsupported_only_without_criu
    (r : request) (e : Env) (t0 : Z) (b : option built) :
  (forall n, errOf (randomCryptoString e n) <> Some (unsupported r)) ->
  fst (construct r e t0) = Some (b, Some (unsupported r)) ->
  wantsLiveContainer r /\ criuAbsent e.
Proof.
  intros Hr.
  destruct r as [inst stateful only allow | args]; unfold construct; cbn [fst].
  - pose proof (newMigrationSource_unsupported inst stateful only allow e t0 Hr) as H.
    unfold unsupportedOnlyIfWanted in H.
    destruct (returned _) as [[s err] |]; [| discriminate].
    intros [= _ ->]. exact (H s eq_refl).
  - pose proof (newMigrationSink_unsupported args e t0 Hr) as H.
    unfold unsupportedOnlyIfWanted in H.
    destruct (returned _) as [[c err] |]; [| discriminate].
    intros [= _ ->]. exact (H c eq_refl).
Qed.

(** A stateful source request for a running container without [criu]. *)
Lemma unsupported_only_without_criu_witness :
  wantsLiveContainer (SourceRequest (Some runningContainer) true false false) /\
  criuAbsent (sampleEnv true None).
Proof.
  refine (unsupported_only_without_criu
            (SourceRequest (Some runningContainer) true false false)
            (sampleEnv true None) 0 None _ eq_refl).
  intros [| [| n]]; discriminate.
Defined.

#[local] Arguments dialsAmong : simpl never.

(** X19: a source session built by [newMigrationSource] for an instance
    and then connected hands the driver exactly what was requested:
    snapshots unless [instanceOnly], liveness when [stateful] was asked
    for a running instance, the [allowInconsistent] flag, and the
    filesystem and live-state connections it was connected with. *)
Theorem built_source_transfers_as_requested
    (i : Instance) (stateful instanceOnly_ allowInconsistent_ : bool) (e : Env) (t0 : Z)
    (s : migrationSourceWs) (control fs criu : option WsConn)
    (e' : Env) (t1 : Z) (migrateOp : option Operation) :
  returned (newMigrationSource (Some i) stateful instanceOnly_ allowInconsistent_
              (start tt e t0)) = Some (Some s, None) ->
  connectsInTime e' ChanMade t1 ->
  calls isMigrateSend (sourceDo migrateOp (start (connectSource control fs criu s) e' t1))
  = [EvMigrateSend
       (mkMigrateSendArgs
          (mkMigrateArgs (SendOf OfSource) (RecvOf OfSource)
             (mkWebsocketIO criu) (mkWebsocketIO fs)
             (negb instanceOnly_) (stateful && IsRunning i))
          allowInconsistent_)].
Proof.
  intros Hret Hc.
  destruct (newMigrationSource_buildsOnly (Some i) stateful instanceOnly_ allowInconsistent_
              e t0 _ _ Hret) as [[[=] _] | [[= ->] _]].
  unfold sourceBuilt, connectSource, runningOpt. cbn in Hc |- *.
  walk; tidy_events; reflexivity.
Qed.

(** A stateful request for a stopped container, then connected. *)
Lemma built_source_transfers_as_requested_witness :
  calls isMigrateSend
    (sourceDo None
       (start (connectSource (Some 1%positive) (Some 2%positive) None
                 (sourceBuilt (Some stoppedContainer) true true false (sampleEnv false None)))
          (sampleEnv false (Some 0)) 0))
  = [EvMigrateSend
       (mkMigrateSendArgs
          (mkMigrateArgs (SendOf OfSource) (RecvOf OfSource)
             (mkWebsocketIO None) (mkWebsocketIO (Some 2%positive)) false false)
          false)].
Proof.
  exact (built_source_transfers_as_requested stoppedContainer true true false
           (sampleEnv false None) 0 _ (Some 1%positive) (Some 2%positive) None
           (sampleEnv false (Some 0)) 0 None eq_refl eq_refl).
Defined.

Lemma built_sink_has_instance (args : MigrationSinkArgs) (e : Env) (t0 : Z)
    (c : migrationSink) (err : option error) :
  returned (newMigrationSink args (start tt e t0)) = Some (Some c, err) ->
  is_Some (ArgInstance args).
Proof. walk; intros; try discriminate; eauto. Qed.

Lemma pull_sink_dials (c : migrationSink) (e : Env) (t0 : Z)
    (instOp : option InstanceOperation) (i : Instance) :
  push c = false ->
  instance (src c) = Some i ->
  dialsAmong [EvDial (controlSecret (src c))]
    [EvDial (controlSecret (src c)); EvDial (fsSecret (src c))]
    [EvDial (controlSecret (src c)); EvDial (fsSecret (src c)); EvDial (criuSecret (src c))]
    (sinkDo instOp (start c e t0)).
Proof.
  intros Hp Hi. walk; unfold dialsAmong; cbn -[events]; tidy_events; tauto.
Qed.



(** The half-connected source, whose wait times out. *)
Lemma timeout_error_only_after_timeout_witness :
  channelWins (sampleEnv false None) (sourceAllConnected halfConnectedSource) 0 (1000 * 10)
  = false.
Proof.
  exact (timeout_error_only_after_timeout (SourceSession halfConnectedSource None)
           (sampleEnv false None) 0 eq_refl).
Defined.
